(** * datapane.processors.api: the four public report operations

    A shallow embedding of [python-client/src/datapane/processors/api.py]
    ([build_report], [save_report], [stringify_report], [upload_report]) over
    an explicit model of the host file system, the console, the browser and
    the remote server, followed by the properties of these operations. *)

From Stdlib Require Import Strings.Byte Strings.Ascii.
From stdpp Require Import base option list strings gmap fin_maps pretty.

Local Open Scope string_scope.
Local Open Scope list_scope.

(** ** Paths and the file system *)

(** A [pathlib.Path], absolute and normalised, as the list of its components
    with the innermost one first: [["assets"; "app"; "home"]] is
    [/home/app/assets], and [[]] is the root.  The parent of a path is its
    tail, so recursion towards the root is structural. *)
Abbreviation Path := (list string).

(** [p / name] for a single component [name]. *)
Definition path_join (p : Path) (name : string) : Path := name :: p.
Infix "//" := path_join (at level 40, left associativity).

(** A path written root first, as one reads it. *)
Definition mkpath (components : list string) : Path := rev components.

(** [str(p)]. *)
Definition Path_str (p : Path) : string :=
  match p with
  | [] => "/"
  | _ => fold_right (λ c acc, "/" +:+ c +:+ acc) "" (rev p)
  end.

(** [q] is [d] itself or lies below it. *)
Definition under (d q : Path) : Prop := d `suffix_of` q.

#[global] Instance under_dec d q : Decision (under d q).
Proof. unfold under. apply _. Defined.

Definition bytes : Type := list Byte.byte.

#[global] Instance byte_eq_dec : EqDecision Byte.byte := Byte.byte_eq_dec.

(** ** Assets, documents and HTML *)

(** What the serialized document embeds as a pointer to an asset: either the
    asset itself, inline encoded (a base64 data URI), or the name of a file
    held by the file store. *)
Inductive AssetRef : Type :=
| RefInline (data : bytes)
| RefName (name : string).

#[global] Instance AssetRef_eq_dec : EqDecision AssetRef.
Proof. solve_decision. Defined.

(** The intermediate document, an XML-like nested-tag form; a forest in
    first-child / next-sibling form.  Python carries it as a [str]; the model
    keeps the parsed structure. *)
Inductive XML : Type :=
| XEnd
| XText (text : string) (next : XML)
| XAsset (src : AssetRef) (next : XML)
| XElem (children : XML) (next : XML).

#[global] Instance XML_eq_dec : EqDecision XML.
Proof. solve_decision. Defined.

(** [cloud_api.app.AppFormatting], reduced to what [api.py] reads:
    [formatting.width.value], [formatting.to_css()] and
    [formatting.light_prose]. *)
Record AppFormatting : Type := mkAppFormatting {
  width_value : string;
  to_css : string;
  light_prose : bool
}.

#[global] Instance AppFormatting_eq_dec : EqDecision AppFormatting.
Proof. solve_decision. Defined.

(** The final HTML document: the template filled with the document name, the
    formatting and the serialized view. *)
Record HTML : Type := mkHTML {
  html_name : option string;
  html_formatting : option AppFormatting;
  html_body : XML
}.

#[global] Instance HTML_eq_dec : EqDecision HTML.
Proof. solve_decision. Defined.

(** What a regular file holds. *)
Inductive FileData : Type :=
| RawData (data : bytes)
| GzipData (data : bytes)      (* the gzip compression of [data] *)
| HtmlData (doc : HTML).

#[global] Instance FileData_eq_dec : EqDecision FileData.
Proof. solve_decision. Defined.

Inductive Node : Type :=
| File (content : FileData)
| Dir.

#[global] Instance Node_eq_dec : EqDecision Node.
Proof. solve_decision. Defined.

(** The file system: every existing path below the root, with its node.  The
    root always exists and is a directory. *)
Abbreviation FS := (gmap Path Node).

(** ** Errors *)

Inductive Exn : Type :=
| DPClientError (msg : string)
| FileExistsError (p : Path)
| FileNotFoundError (p : Path)
| NotADirectoryError (p : Path)
| TypeError (msg : string)
| ValidationError (msg : string)
| AssetIOError (p : Path)
| ConsistencyError
| TransportError (msg : string).

#[global] Instance Exn_eq_dec : EqDecision Exn.
Proof. solve_decision. Defined.

(** ** State and error monad

    A computation reads and updates a state [S] and either returns a value or
    raises; the state reached when it raises is kept, as the effects of a
    Python call that raises are. *)
Definition M (S A : Type) : Type := S → (Exn + A) * S.

#[global] Instance M_ret {S} : MRet (M S) := λ A a s, (inr a, s).
#[global] Instance M_bind {S} : MBind (M S) := λ A B k m s,
  match m s with
  | (inl e, s') => (inl e, s')
  | (inr a, s') => k a s'
  end.

Definition raise {S A} (e : Exn) : M S A := λ s, (inl e, s).
Definition get {S} : M S S := λ s, (inr s, s).
Definition modify {S} (f : S → S) : M S unit := λ s, (inr tt, f s).

(** Run a computation on a component of a larger state. *)
Definition zoom {S T A} (proj : T → S) (upd : S → T → T) (m : M S A) : M T A :=
  λ t, let '(r, s') := m (proj t) in (r, upd s' t).

(** ** The host: what code running on the machine can touch *)

Record Host : Type := mkHost {
  fs : FS;
  cwd : Path;                 (* [os.getcwd()] *)
  tmpdir : Path;              (* the process's temporary directory *)
  console : list string;      (* messages shown by [display_msg] *)
  browser : list string       (* URLs and files opened in the browser *)
}.

Definition set_fs (f : FS → FS) (h : Host) : Host :=
  mkHost (f (fs h)) (cwd h) (tmpdir h) (console h) (browser h).

(** Path resolution, as [stat] does it: every component above the last must
    be a directory. *)
Fixpoint stat (m : FS) (p : Path) : Exn + Node :=
  match p with
  | [] => inr Dir
  | _ :: parent =>
      match stat m parent with
      | inl e => inl e
      | inr (File _) => inl (NotADirectoryError p)
      | inr Dir =>
          match m !! p with
          | Some n => inr n
          | None => inl (FileNotFoundError p)
          end
      end
  end.

(** [Path.is_dir()]: false as well when the path cannot be resolved. *)
Definition is_dir (m : FS) (p : Path) : bool :=
  match stat m p with
  | inr Dir => true
  | _ => false
  end.

(** [os.mkdir(p)]. *)
Definition os_mkdir (p : Path) : M Host unit := λ h,
  match p with
  | [] => (inl (FileExistsError p), h)
  | _ :: parent =>
      match stat (fs h) parent with
      | inl e => (inl e, h)
      | inr (File _) => (inl (NotADirectoryError p), h)
      | inr Dir =>
          match fs h !! p with
          | Some _ => (inl (FileExistsError p), h)
          | None => (inr tt, set_fs (insert p Dir) h)
          end
      end
  end.

(** [Path.mkdir(parents, exist_ok)], after pathlib:
<<
    try: os.mkdir(self, mode)
    except FileNotFoundError:
        if not parents or self.parent == self: raise
        self.parent.mkdir(parents=True, exist_ok=True)
        self.mkdir(mode, parents=False, exist_ok=exist_ok)
    except OSError:
        if not exist_ok or not self.is_dir(): raise
>>
    first without [parents], then with. *)
Definition mkdir_single (exist_ok : bool) (p : Path) : M Host unit := λ h,
  match os_mkdir p h with
  | (inr tt, h') => (inr tt, h')
  | (inl (FileNotFoundError q), h') => (inl (FileNotFoundError q), h')
  | (inl e, h') =>
      if exist_ok && is_dir (fs h') p then (inr tt, h') else (inl e, h')
  end.

Fixpoint mkdir_parents (exist_ok : bool) (p : Path) : M Host unit := λ h,
  match os_mkdir p h with
  | (inr tt, h') => (inr tt, h')
  | (inl (FileNotFoundError q), h') =>
      match p with
      | [] => (inl (FileNotFoundError q), h')
      | _ :: parent =>
          match mkdir_parents true parent h' with
          | (inl e, h'') => (inl e, h'')
          | (inr tt, h'') => mkdir_single exist_ok p h''
          end
      end
  | (inl e, h') =>
      if exist_ok && is_dir (fs h') p then (inr tt, h') else (inl e, h')
  end.

Definition Path_mkdir (parents exist_ok : bool) (p : Path) : M Host unit :=
  if parents then mkdir_parents exist_ok p else mkdir_single exist_ok p.

(** [shutil.rmtree(p)]: the directory and everything below it. *)
Definition rmtree (p : Path) : M Host unit := λ h,
  match stat (fs h) p with
  | inl e => (inl e, h)
  | inr (File _) => (inl (NotADirectoryError p), h)
  | inr Dir => (inr tt, set_fs (filter (λ kv, ¬ under p kv.1)) h)
  end.

(** Create or replace the regular file [p]; a write that cannot be done is
    reported as the specification's [AssetIOError]. *)
Definition write_file (p : Path) (content : FileData) : M Host unit := λ h,
  match p with
  | [] => (inl (AssetIOError p), h)
  | _ :: parent =>
      match stat (fs h) parent, stat (fs h) p with
      | inr Dir, inr Dir => (inl (AssetIOError p), h)
      | inr Dir, _ => (inr tt, set_fs (insert p (File content)) h)
      | _, _ => (inl (AssetIOError p), h)
      end
  end.

Definition display_msg (text : string) : M Host unit :=
  modify (λ h, mkHost (fs h) (cwd h) (tmpdir h) (console h ++ [text]) (browser h)).

Definition open_in_browser (url : string) : M Host unit :=
  modify (λ h, mkHost (fs h) (cwd h) (tmpdir h) (console h) (browser h ++ [url])).

(** ** The view, the file store and the pipeline *)

(** [datapane.view.Blocks]: the block tree, opaque to [api.py].  Only the
    shape the processors walk is kept: text nodes, nodes that carry an
    embeddable binary payload, and groups; a forest in first-child /
    next-sibling form. *)
Inductive Blocks : Type :=
| BEnd
| BText (text : string) (next : Blocks)
| BAsset (data : bytes) (next : Blocks)
| BGroup (children : Blocks) (next : Blocks).

(** The file-entry classes.  [api.py] imports and uses [B64FileEntry] (the
    inline strategy) and [GzipTmpFileEntry] (the compressed temporary file
    strategy); [DirectFileEntry] is the third strategy the specification
    names, which [api.py] neither imports nor uses. *)
Inductive FileEntryKind : Type :=
| B64FileEntry
| GzipTmpFileEntry
| DirectFileEntry.

#[global] Instance FileEntryKind_eq_dec : EqDecision FileEntryKind.
Proof. solve_decision. Defined.

(** The attachment list: asset reference name and payload, in registration
    order. *)
Definition FileList : Type := list (string * bytes).

(** What [.result] holds, depending on the stage that ran last. *)
Inductive ResultUnion : Type :=
| NoResult
| ResXML (doc : XML)
| ResHTML (html : HTML)
| ResUpload (doc : XML) (file_list : FileList).

(** Modelled from the spec: the class [ViewState] of [processors/types.py].
    The fields are the keyword arguments [api.py] constructs it with
    ([blocks], [file_entry_klass], [dir_path]), the file store's entries and
    the accumulated result. *)
Record ViewState : Type := mkViewState {
  blocks : Blocks;
  file_entry_klass : FileEntryKind;
  dir_path : option Path;
  store : FileList;
  result : ResultUnion
}.

(** [ViewState(blocks=…, file_entry_klass=…, dir_path=…)]. *)
Definition ViewState_new (b : Blocks) (klass : FileEntryKind) (dir : option Path) : ViewState :=
  mkViewState b klass dir [] NoResult.

(** A processor, called on the state; it runs on the host and may raise. *)
Definition Stage : Type := ViewState → M Host ViewState.

(** Modelled from the spec: the class [Pipeline] of [processors/types.py].
    [Pipeline(s)] holds the state; [pipe] applies a stage to the current state
    and replaces it, and once a stage has failed nothing further runs and the
    failure is what comes out; [result] is the payload of the final state. *)
Definition Pipeline : Type := M Host ViewState.
Definition Pipeline_new (s : ViewState) : Pipeline := mret s.
Definition pipe (p : Pipeline) (stage : Stage) : Pipeline := p ≫= stage.
Definition Pipeline_result (p : Pipeline) : M Host ResultUnion := s ← p; mret (result s).

Infix "▷" := pipe (at level 45, left associativity).

(** The processors of [processors/processors.py] that [api.py] pipes, with
    their constructor arguments. *)
Class Processors : Type := {
  PreProcessView : Stage;
  ConvertXML : Stage;
  ExportHTMLFileAssets (app_dir : Path) (name : string) (formatting : option AppFormatting) : Stage;
  ExportHTMLInlineAssets (path : Path) (open : bool) (name : string)
    (formatting : option AppFormatting) : Stage;
  ExportHTMLStringInlineAssets (name : option string) (formatting : option AppFormatting) : Stage;
  PreUploadProcessor : Stage
}.

(** ** The remote service and the session *)

(** Values of the keyword arguments sent with an upload. *)
Inductive Value : Type :=
| VNone
| VBool (b : bool)
| VStr (s : string)
| VList (l : list string).

#[global] Instance Value_eq_dec : EqDecision Value.
Proof. solve_decision. Defined.

(** The arguments of one [Report.post_with_files] call: the positional
    [files] ([dict(attachments=file_list)]), [overwrite], [document] and the
    remaining keyword arguments. *)
Record Payload : Type := mkPayload {
  attachments : FileList;
  overwrite_flag : bool;
  document : XML;
  metadata : gmap string Value
}.

Record Report : Type := mkReport { web_url : string }.

(** The world [upload_report] runs in: the host, the session configuration
    flag [c.config.is_org], the remote server's answer to a request and the
    requests posted so far. *)
Record World : Type := mkWorld {
  host : Host;
  config_is_org : bool;
  server : Payload → Exn + Report;
  requests : list Payload
}.

Definition on_host {A} (m : M Host A) : M World A :=
  zoom host (λ h w, mkWorld h (config_is_org w) (server w) (requests w)) m.

(** [Report.post_with_files(files, overwrite=…, document=…, **kwargs)]: a
    keyword given twice is a [TypeError] of the call itself; otherwise the
    request goes out and the server answers. *)
Definition post_with_files (file_list : FileList) (overwrite : bool) (view_xml : XML)
    (kwargs : gmap string Value) : M World Report := λ w,
  if bool_decide (is_Some (kwargs !! "overwrite") ∨ is_Some (kwargs !! "document")) then
    (inl (TypeError "got multiple values for keyword argument"), w)
  else
    let payload := mkPayload file_list overwrite view_xml kwargs in
    (server w payload,
     mkWorld (host w) (config_is_org w) (server w) (requests w ++ [payload])).

(** Whether a keyword value counts as empty. *)
Definition is_empty (v : Value) : bool :=
  match v with
  | VNone => true
  | VStr s => bool_decide (s = "")
  | VList l => bool_decide (l = [])
  | VBool _ => false
  end.

(** Modelled from the spec: [datapane.common.dict_drop_empty], defined
    outside [processors/api.py].  It returns the dictionary without the
    entries whose value is empty or absent ([None], the empty string, the
    empty list); a boolean is a value, never an empty one. *)
Definition dict_drop_empty (xs : gmap string Value) : gmap string Value :=
  filter (λ kv, is_empty kv.2 = false) xs.

(** [kwargs.update(k1=v1, …)]: later entries win, as do the new ones over
    those already present. *)
Definition dict_update (kwargs : gmap string Value) (items : list (string * Value)) :
    gmap string Value :=
  foldl (λ m kv, <[kv.1 := kv.2]> m) kwargs items.

(** ** [api.py] *)

Definition app_exists_msg (app_dir : Path) : string :=
  "App exists at given path " +:+ Path_str app_dir +:+
  " -- set `overwrite=True` to allow overwrite".

(** The characters a Rocq string literal cannot hold directly. *)
Definition dquote : string := String "034"%char EmptyString.
Definition newline : string := String "010"%char EmptyString.

(** [f'<style type=…>\n{css}\n</style>'], the type attribute being
    [text/css] in double quotes. *)
Definition style_tag (css : string) : string :=
  "<style type=" +:+ dquote +:+ "text/css" +:+ dquote +:+ ">" +:+ newline +:+
  css +:+ newline +:+ "</style>".

(** [(view_xml, file_list) = ….result]. *)
Definition unpack_pair {S} (r : ResultUnion) : M S (XML * FileList) :=
  match r with
  | ResUpload view_xml file_list => mret (view_xml, file_list)
  | _ => raise (TypeError "cannot unpack the result into (view_xml, file_list)")
  end.

Section api.
Context `{Processors}.

(** [app_dir: Path = Path(dest or os.getcwd()) / name], for a destination
    given as an absolute path and a [name] that is one path component. *)
Definition app_dir_of (h : Host) (dest : option Path) (name : string) : Path :=
  default (cwd h) dest // name.

(** The state [build_report] constructs (line 73). *)
Definition build_report_state (blocks : Blocks) (assets_dir : Path) : ViewState :=
  ViewState_new blocks GzipTmpFileEntry (Some assets_dir).

(** Lines 60 to 70, "build the dest dir": the app directory is decided,
    replaced or refused when it exists, and its [assets] directory is
    created.  The value is [app_dir]. *)
Definition build_dest_dir (name : string) (dest : option Path) (overwrite : bool) :
    M Host Path :=
  h ← get;
  let app_dir := app_dir_of h dest name in
  let app_exists := is_dir (fs h) app_dir in
  (if app_exists && overwrite then rmtree app_dir
   else if app_exists && negb overwrite then raise (DPClientError (app_exists_msg app_dir))
   else mret tt);;
  let assets_dir := app_dir // "assets" in
  Path_mkdir true false assets_dir;;
  mret app_dir.

(** Lines 72 to 80, "write the app html and assets". *)
Definition build_report (blocks : Blocks) (name : string) (dest : option Path)
    (formatting : option AppFormatting) (overwrite : bool) : M Host unit :=
  app_dir ← build_dest_dir name dest overwrite;
  let assets_dir := app_dir // "assets" in
  let s := build_report_state blocks assets_dir in
  _ ← Pipeline_result
        (Pipeline_new s
           ▷ PreProcessView
           ▷ ConvertXML
           ▷ ExportHTMLFileAssets app_dir name formatting);
  mret tt.

(** The state [save_report] and [stringify_report] construct. *)
Definition inline_state (blocks : Blocks) : ViewState :=
  ViewState_new blocks B64FileEntry None.

Definition save_report (blocks : Blocks) (path : Path) (open : bool) (name : string)
    (formatting : option AppFormatting) : M Host unit :=
  let s := inline_state blocks in
  _ ← Pipeline_result
        (Pipeline_new s
           ▷ PreProcessView
           ▷ ConvertXML
           ▷ ExportHTMLInlineAssets path open name formatting);
  mret tt.

Definition stringify_report (blocks : Blocks) (name : option string)
    (formatting : option AppFormatting) : M Host ResultUnion :=
  let s := inline_state blocks in
  report_html ← Pipeline_result
        (Pipeline_new s
           ▷ PreProcessView
           ▷ ConvertXML
           ▷ ExportHTMLStringInlineAssets name formatting);
  mret report_html.

(** The keyword arguments [upload_report] collects: lines 165 to 181, with
    [is_org] the value of [c.config.is_org]. *)
Definition upload_kwargs_raw (is_org : bool) (name description source_url : string)
    (publicly_visible : option bool) (tags : option (list string))
    (project : option string) (formatting : option AppFormatting)
    (kwargs : gmap string Value) : gmap string Value :=
  let kwargs := dict_update kwargs
    [ ("name", VStr name);
      ("description", VStr description);
      ("tags", VList (default [] tags));
      ("source_url", VStr source_url);
      ("publicly_visible", from_option VBool VNone publicly_visible);
      ("project", from_option VStr VNone project) ] in
  match formatting with
  | Some f =>
      dict_update kwargs
        [ ("width", VStr (width_value f));
          ("style_header", VStr (if is_org then style_tag (to_css f) else to_css f));
          ("is_light_prose", VBool (light_prose f)) ]
  | None => kwargs
  end.

(** Line 183: the empty ones are stripped; these are sent. *)
Definition upload_kwargs (is_org : bool) (name description source_url : string)
    (publicly_visible : option bool) (tags : option (list string))
    (project : option string) (formatting : option AppFormatting)
    (kwargs : gmap string Value) : gmap string Value :=
  dict_drop_empty
    (upload_kwargs_raw is_org name description source_url publicly_visible tags project
       formatting kwargs).

(** The state [upload_report] constructs (line 185). *)
Definition upload_state (blocks : Blocks) : ViewState :=
  ViewState_new blocks GzipTmpFileEntry None.

Definition upload_report (blocks : Blocks) (name description source_url : string)
    (publicly_visible : option bool) (tags : option (list string))
    (project : option string) (open : bool) (formatting : option AppFormatting)
    (overwrite : bool) (kwargs : gmap string Value) : M World Report :=
  on_host (display_msg "Uploading report and associated data - *please wait...*");;
  w ← get;
  let kwargs := upload_kwargs (config_is_org w) name description source_url
                  publicly_visible tags project formatting kwargs in
  let s := upload_state blocks in
  r ← on_host (Pipeline_result
                 (Pipeline_new s ▷ PreProcessView ▷ ConvertXML ▷ PreUploadProcessor));
  '(view_xml, file_list) ← unpack_pair r;
  report ← post_with_files file_list overwrite view_xml kwargs;
  (if open then on_host (open_in_browser (web_url report)) else mret tt);;
  on_host (display_msg ("Report successfully uploaded - view and share at " +:+
                        web_url report +:+ "."));;
  mret report.
End api.

(** ** The processors and the file store, after the specification

    [processors/processors.py] and [processors/file_store.py] lie outside
    [api.py].  The definitions of this module follow the specification's
    account of them; [api.py] is stated over any [Processors], and this
    instance is the one the properties that depend on what the stages do are
    settled against. *)
Module SpecModel.

Definition set_result (s : ViewState) (r : ResultUnion) : ViewState :=
  mkViewState (blocks s) (file_entry_klass s) (dir_path s) (store s) r.

Definition add_entry (s : ViewState) (name : string) (data : bytes) : ViewState :=
  mkViewState (blocks s) (file_entry_klass s) (dir_path s) (store s ++ [(name, data)])
    (result s).

(** Modelled from the spec: the stable, collision-free name of the next
    file entry, by sequence number within the view state. *)
Definition entry_name (s : ViewState) : string :=
  "asset-" +:+ pretty (length (store s)).

(** Modelled from the spec: [register(bytes) -> reference] of the file
    store, one case per strategy.  The inline entry is pure; the compressed
    temporary entry compresses and writes under the view state's directory
    when it has one and under the process's temporary directory otherwise;
    the direct entry writes the raw bytes under the caller's directory and
    fails without one. *)
Definition register (s : ViewState) (data : bytes) : M Host (AssetRef * ViewState) :=
  match file_entry_klass s with
  | B64FileEntry => mret (RefInline data, s)
  | GzipTmpFileEntry =>
      h ← get;
      let name := entry_name s +:+ ".gz" in
      write_file (default (tmpdir h) (dir_path s) // name) (GzipData data);;
      mret (RefName name, add_entry s name data)
  | DirectFileEntry =>
      match dir_path s with
      | None => raise (AssetIOError [])
      | Some dir =>
          let name := entry_name s in
          write_file (dir // name) (RawData data);;
          mret (RefName name, add_entry s name data)
      end
  end.

(** Modelled from the spec: [PreProcessView] validates that the tree is not
    empty and is free of side effects. *)
Definition PreProcessView : Stage := λ s,
  match blocks s with
  | BEnd => raise (ValidationError "empty view")
  | _ => mret s
  end.

(** The depth-first walk in document order; every payload goes through
    [register] and the reference it returns is what the document embeds. *)
Fixpoint convert (b : Blocks) (s : ViewState) : M Host (XML * ViewState) :=
  match b with
  | BEnd => mret (XEnd, s)
  | BText text next =>
      '(x, s1) ← convert next s;
      mret (XText text x, s1)
  | BAsset data next =>
      '(ref, s1) ← register s data;
      '(x, s2) ← convert next s1;
      mret (XAsset ref x, s2)
  | BGroup children next =>
      '(c, s1) ← convert children s;
      '(x, s2) ← convert next s1;
      mret (XElem c x, s2)
  end.

(** Modelled from the spec: [ConvertXML] serializes the tree; a failed
    registration aborts the conversion. *)
Definition ConvertXML : Stage := λ s,
  '(doc, s1) ← convert (blocks s) s;
  mret (set_result s1 (ResXML doc)).

Definition with_document (s : ViewState) (k : XML → M Host ViewState) : M Host ViewState :=
  match result s with
  | ResXML doc => k doc
  | _ => raise (ValidationError "no serialized document")
  end.

(** Modelled from the spec: the file-based export writes the HTML shell
    into the app directory; the assets are in its [assets] directory
    already. *)
Definition ExportHTMLFileAssets (app_dir : Path) (name : string)
    (formatting : option AppFormatting) : Stage := λ s,
  with_document s (λ doc,
    let html := mkHTML (Some name) formatting doc in
    write_file (app_dir // "index.html") (HtmlData html);;
    mret (set_result s (ResHTML html))).

(** Modelled from the spec: the inline-file export writes the single HTML
    document to the caller's path and optionally opens it. *)
Definition ExportHTMLInlineAssets (path : Path) (open : bool) (name : string)
    (formatting : option AppFormatting) : Stage := λ s,
  with_document s (λ doc,
    let html := mkHTML (Some name) formatting doc in
    write_file path (HtmlData html);;
    (if open then open_in_browser (Path_str path) else mret tt);;
    mret (set_result s (ResHTML html))).

(** Modelled from the spec: the inline-string export is the inline-file
    export without the file. *)
Definition ExportHTMLStringInlineAssets (name : option string)
    (formatting : option AppFormatting) : Stage := λ s,
  with_document s (λ doc, mret (set_result s (ResHTML (mkHTML name formatting doc)))).

(** The asset references a document embeds by name, in document order. *)
Fixpoint doc_refs (doc : XML) : list string :=
  match doc with
  | XEnd => []
  | XText _ next => doc_refs next
  | XAsset (RefName name) next => name :: doc_refs next
  | XAsset (RefInline _) next => doc_refs next
  | XElem children next => doc_refs children ++ doc_refs next
  end.

(** The attachment list holds exactly the references the document embeds. *)
Definition consistent (doc : XML) (file_list : FileList) : Prop :=
  list_to_set (C := gset string) (doc_refs doc) = list_to_set file_list.*1.

#[global] Instance consistent_dec doc file_list : Decision (consistent doc file_list).
Proof. unfold consistent. apply _. Defined.

(** Modelled from the spec: [PreUploadProcessor] returns the pair of the
    document and the attachment list of the store, and detects a dangling
    or missing reference before it returns. *)
Definition PreUploadProcessor : Stage := λ s,
  with_document s (λ doc,
    if decide (consistent doc (store s)) then mret (set_result s (ResUpload doc (store s)))
    else raise ConsistencyError).

End SpecModel.

#[global] Instance spec_processors : Processors := {|
  PreProcessView := SpecModel.PreProcessView;
  ConvertXML := SpecModel.ConvertXML;
  ExportHTMLFileAssets := SpecModel.ExportHTMLFileAssets;
  ExportHTMLInlineAssets := SpecModel.ExportHTMLInlineAssets;
  ExportHTMLStringInlineAssets := SpecModel.ExportHTMLStringInlineAssets;
  PreUploadProcessor := SpecModel.PreUploadProcessor
|}.

(** ** The pipeline in the specification's words

    An ordered list of stages folded from the left with an exit at the first
    failure; what [api.py] writes as a chain of [pipe] calls is compared with
    it below. *)
Fixpoint run_stages (stages : list Stage) (s : ViewState) : M Host ViewState := λ h,
  match stages with
  | [] => (inr s, h)
  | stage :: rest =>
      match stage s h with
      | (inl e, h') => (inl e, h')
      | (inr s', h') => run_stages rest s' h'
      end
  end.

(** A processor set that keeps the first two stages of [P] and ends an upload
    with the specification's [PreUploadProcessor]. *)
Definition with_spec_upload (P : Processors) : Processors := {|
  PreProcessView := @PreProcessView P;
  ConvertXML := @ConvertXML P;
  ExportHTMLFileAssets := @ExportHTMLFileAssets P;
  ExportHTMLInlineAssets := @ExportHTMLInlineAssets P;
  ExportHTMLStringInlineAssets := @ExportHTMLStringInlineAssets P;
  PreUploadProcessor := SpecModel.PreUploadProcessor
|}.

(** The destination is in the state it had before the call, or gone. *)
Definition rolled_back_or_removed (before after : FS) (app_dir : Path) : Prop :=
  (∀ q, under app_dir q → after !! q = before !! q) ∨
  (∀ q, under app_dir q → after !! q = None).

(** The reading of "never left half-written": whenever a stage fails after
    the destination directory was built, the destination is rolled back or
    removed. *)
Definition failure_atomic (P : Processors) : Prop :=
  ∀ blocks name dest formatting overwrite h app_dir h1 e h',
    build_dest_dir name dest overwrite h = (inr app_dir, h1) →
    build_report blocks name dest formatting overwrite h = (inl e, h') →
    rolled_back_or_removed (fs h) (fs h') app_dir.

Definition uploading_msg : string := "Uploading report and associated data - *please wait...*".

(** The host on which the upload pipeline starts: the first message is out. *)
Definition announced (h : Host) : Host := (display_msg uploading_msg h).2.

Definition failed {A} (r : Exn + A) : Prop := ∃ e, r = inl e.

(** The document of a view with every asset embedded inline. *)
Fixpoint inline_xml (b : Blocks) : XML :=
  match b with
  | BEnd => XEnd
  | BText text next => XText text (inline_xml next)
  | BAsset data next => XAsset (RefInline data) (inline_xml next)
  | BGroup children next => XElem (inline_xml children) (inline_xml next)
  end.

(** ** Sample hosts and views *)

Definition sample_image : bytes := [Byte.x89; Byte.x50; Byte.x4e; Byte.x47].

Definition sample_view : Blocks := BText "hello" (BAsset sample_image BEnd).

(** An empty home directory, which is also the working directory. *)
Definition fresh_host : Host :=
  mkHost (list_to_map [(mkpath ["home"], Dir); (mkpath ["tmp"], Dir)])
    (mkpath ["home"]) (mkpath ["tmp"]) [] [].

(** [/home/demo] holds an app of an earlier run. *)
Definition built_host : Host :=
  mkHost (list_to_map [(mkpath ["home"], Dir); (mkpath ["tmp"], Dir);
                       (mkpath ["home"; "demo"], Dir);
                       (mkpath ["home"; "demo"; "assets"], Dir);
                       (mkpath ["home"; "demo"; "assets"; "old.gz"], File (GzipData []));
                       (mkpath ["home"; "demo"; "index.html"],
                        File (HtmlData (mkHTML (Some "demo") None XEnd)))])
    (mkpath ["home"]) (mkpath ["tmp"]) [] [].

(** [/home/demo] is a regular file. *)
Definition file_host : Host :=
  mkHost (list_to_map [(mkpath ["home"], Dir); (mkpath ["tmp"], Dir);
                       (mkpath ["home"; "demo"], File (RawData sample_image))])
    (mkpath ["home"]) (mkpath ["tmp"]) [] [].

Definition sample_world (is_org : bool) : World :=
  mkWorld fresh_host is_org (λ _, inr (mkReport "https://cloud.example/reports/1")) [].

Definition sample_formatting : AppFormatting := mkAppFormatting "full" "a{}" false.

(** A world whose server refuses every request. *)
Definition refusing_world : World :=
  mkWorld fresh_host false (λ _, inl (TransportError "503 Service Unavailable")) [].

(** Processors whose serialization is wrong on purpose: the document refers
    to an asset the store does not hold. *)
Definition dangling_processors : Processors := {|
  PreProcessView := SpecModel.PreProcessView;
  ConvertXML := λ s, mret (SpecModel.set_result s (ResXML (XAsset (RefName "missing") XEnd)));
  ExportHTMLFileAssets := SpecModel.ExportHTMLFileAssets;
  ExportHTMLInlineAssets := SpecModel.ExportHTMLInlineAssets;
  ExportHTMLStringInlineAssets := SpecModel.ExportHTMLStringInlineAssets;
  PreUploadProcessor := SpecModel.PreUploadProcessor
|}.

(** ** Well-formed file systems *)

(** Every entry below the top level has a directory as its parent, as on a
    real file system. *)
Definition parent_is_dir (m : FS) (p : Path) : Prop :=
  match p with
  | [] => True
  | _ :: parent => parent = [] ∨ m !! parent = Some Dir
  end.

#[global] Instance parent_is_dir_dec m p : Decision (parent_is_dir m p).
Proof. destruct p; apply _. Defined.

Definition wf_fs (m : FS) : Prop := map_Forall (λ p _, parent_is_dir m p) m.

#[global] Instance wf_fs_dec m : Decision (wf_fs m).
Proof. unfold wf_fs. apply _. Defined.

(** [q] is a directory on the way from the root down to [p], [p] included. *)
Definition on_the_way (q p : Path) : Prop := q ≠ [] ∧ under q p.

#[global] Instance on_the_way_dec q p : Decision (on_the_way q p).
Proof. unfold on_the_way. apply _. Defined.

(** What a step of the file system operations may do: the host differs in
    its file system only, and a success leaves [p] a directory. *)
Definition lands_on (p : Path) (h : Host) (out : (Exn + unit) * Host) : Prop :=
  ∃ m' : FS, out.2 = set_fs (λ _, m') h ∧ (out.1 = inr tt → is_dir m' p = true).


(** * Properties *)

(** ** The file system operations *)

Lemma under_refl (p : Path) : under p p.
Proof. unfold under. done. Qed.

Lemma under_parent (d : Path) (c : string) (q : Path) : under d q → under d (c :: q).
Proof. unfold under. apply suffix_cons_r. Qed.

Lemma not_under_child (c : string) (p : Path) : ¬ under (c :: p) p.
Proof.
  unfold under. intros Hs. apply suffix_length in Hs. simpl in Hs. lia.
Qed.

Lemma under_child (c : string) (p : Path) : under p (c :: p).
Proof. apply under_parent, under_refl. Qed.

(** What lies below a directory, strictly: anything under it but itself. *)
Lemma under_inv (d q : Path) :
  under d q → q = d ∨ ∃ c parent, q = c :: parent ∧ under d parent.
Proof.
  unfold under. intros [k ->]. destruct k as [|c k]; [by left|].
  right. exists c, (k ++ d). split; [done|]. by apply suffix_app_r.
Qed.

(** Resolution of a path looks at the path and its ancestors only. *)
Lemma stat_ext (m1 m2 : FS) (p : Path) :
  (∀ q, under q p → m1 !! q = m2 !! q) → stat m1 p = stat m2 p.
Proof.
  induction p as [|c parent IH]; intros Heq; [done|].
  simpl. rewrite IH.
  - rewrite (Heq (c :: parent)) by apply under_refl. done.
  - intros q Hq. apply Heq. by apply under_parent.
Qed.

Lemma stat_insert_outside (m : FS) (p q : Path) (n : Node) :
  ¬ under p q → stat (<[p := n]> m) q = stat m q.
Proof.
  intros Hn. apply stat_ext. intros a Ha.
  apply lookup_insert_ne. intros ->. done.
Qed.

Lemma lookup_remove_outside (m : FS) (p q : Path) :
  ¬ under p q → filter (λ kv : Path * Node, ¬ under p kv.1) m !! q = m !! q.
Proof.
  intros Hn. destruct (m !! q) as [n|] eqn:Hq.
  - apply map_lookup_filter_Some. done.
  - apply map_lookup_filter_None. left. done.
Qed.

Lemma lookup_remove_under (m : FS) (p q : Path) :
  under p q → filter (λ kv : Path * Node, ¬ under p kv.1) m !! q = None.
Proof.
  intros Hu. apply map_lookup_filter_None. right. intros n _ Hn. by apply Hn.
Qed.

Lemma stat_remove_outside (m : FS) (p q : Path) :
  ¬ under p q → stat (filter (λ kv : Path * Node, ¬ under p kv.1) m) q = stat m q.
Proof.
  intros Hn. apply stat_ext. intros a Ha.
  apply lookup_remove_outside. intros Hpa. apply Hn.
  unfold under in *. by etrans.
Qed.

(** A directory's parent resolves to a directory. *)
Lemma is_dir_parent (m : FS) (c : string) (parent : Path) :
  is_dir m (c :: parent) = true → stat m parent = inr Dir.
Proof.
  unfold is_dir. simpl. destruct (stat m parent) as [e|[content|]]; done.
Qed.

Lemma is_dir_stat (m : FS) (p : Path) : is_dir m p = true ↔ stat m p = inr Dir.
Proof.
  unfold is_dir. destruct (stat m p) as [e|[content|]]; split; done.
Qed.

(** [rmtree] of a directory succeeds, leaves nothing at or below it and
    nothing else changed. *)
Lemma rmtree_dir (p : Path) (h : Host) :
  is_dir (fs h) p = true →
  rmtree p h = (inr tt, set_fs (filter (λ kv : Path * Node, ¬ under p kv.1)) h).
Proof.
  intros Hd. apply is_dir_stat in Hd. unfold rmtree. by rewrite Hd.
Qed.

(** [mkdir(parents=True)] of [p / c] when [p] is missing and the parent of [p]
    is a directory: both directories are created, nothing else changes. *)
Lemma mkdir_two_levels (c1 c2 : string) (parent : Path) (h : Host) :
  stat (fs h) parent = inr Dir →
  fs h !! (c1 :: parent) = None →
  fs h !! (c2 :: c1 :: parent) = None →
  Path_mkdir true false (c2 :: c1 :: parent) h
  = (inr tt, set_fs (λ m, <[c2 :: c1 :: parent := Dir]> (<[c1 :: parent := Dir]> m)) h).
Proof.
  intros Hp H1 H2. unfold Path_mkdir.
  assert (Hs1 : stat (fs h) (c1 :: parent) = inl (FileNotFoundError (c1 :: parent))).
  { cbn [stat]. by rewrite Hp, H1. }
  cbn [mkdir_parents]. unfold os_mkdir at 1. rewrite Hs1.
  unfold os_mkdir at 1. rewrite Hp, H1.
  unfold mkdir_single, os_mkdir. cbn [set_fs fs].
  assert (Hs2 : stat (<[c1 :: parent := Dir]> (fs h)) (c1 :: parent) = inr Dir).
  { cbn [stat]. rewrite stat_insert_outside by apply not_under_child.
    by rewrite Hp, lookup_insert_eq. }
  rewrite Hs2. rewrite lookup_insert_ne, H2.
  - done.
  - intros Heq. apply (f_equal length) in Heq. simpl in Heq. lia.
Qed.

(** ** Building the destination directory *)

Ltac run_M :=
  unfold mbind, mret, M_bind, M_ret, get, raise, modify; cbn beta iota.

(** The destination exists and [overwrite] is off: refused, nothing touched. *)
Lemma build_dest_dir_refused (name : string) (dest : option Path) (h : Host) :
  is_dir (fs h) (app_dir_of h dest name) = true →
  build_dest_dir name dest false h
  = (inl (DPClientError (app_exists_msg (app_dir_of h dest name))), h).
Proof.
  intros Hd. unfold build_dest_dir. run_M. by rewrite Hd.
Qed.

(** The destination exists and [overwrite] is on: the tree is removed and the
    two directories are created anew. *)
Lemma build_dest_dir_replaced (name : string) (dest : option Path) (h : Host) :
  let app_dir := app_dir_of h dest name in
  is_dir (fs h) app_dir = true →
  build_dest_dir name dest true h
  = (inr app_dir,
     set_fs (λ m, <[app_dir // "assets" := Dir]>
                    (<[app_dir := Dir]>
                       (filter (λ kv : Path * Node, ¬ under app_dir kv.1) m))) h).
Proof.
  intros app_dir Hd. unfold build_dest_dir. run_M. fold app_dir. rewrite Hd.
  cbn [andb]. rewrite rmtree_dir by done.
  unfold app_dir, app_dir_of, path_join in *.
  set (parent := default (cwd h) dest) in *.
  rewrite mkdir_two_levels.
  - done.
  - cbn [fs set_fs]. rewrite stat_remove_outside by apply not_under_child.
    by eapply is_dir_parent.
  - cbn [fs set_fs]. apply lookup_remove_under, under_refl.
  - cbn [fs set_fs]. apply lookup_remove_under, under_child.
Qed.

(** The destination is a regular file: [is_dir] is false, and creating
    [assets] below it fails in [os.mkdir], whatever [overwrite] is. *)
Lemma build_dest_dir_file (name : string) (dest : option Path) (overwrite : bool)
    (content : FileData) (h : Host) :
  stat (fs h) (app_dir_of h dest name) = inr (File content) →
  build_dest_dir name dest overwrite h
  = (inl (NotADirectoryError (app_dir_of h dest name // "assets")), h).
Proof.
  intros Hf. unfold build_dest_dir. run_M.
  unfold is_dir. rewrite Hf. cbn [andb].
  unfold Path_mkdir, app_dir_of, path_join in *. cbn [mkdir_parents]. unfold os_mkdir.
  rewrite Hf. done.
Qed.

(** The chain of [pipe] calls is the left fold with early exit. *)
Lemma pipe3_run_stages (s : ViewState) (f g k : Stage) (h : Host) :
  Pipeline_result (Pipeline_new s ▷ f ▷ g ▷ k) h
  = (s' ← run_stages [f; g; k] s; mret (result s')) h.
Proof.
  unfold Pipeline_result, Pipeline_new, pipe. run_M. cbn [run_stages].
  destruct (f s h) as [[e|s1] h1]; [done|].
  destruct (g s1 h1) as [[e|s2] h2]; [done|].
  destruct (k s2 h2) as [[e|s3] h3]; done.
Qed.

(** A failure of the pipeline is the failure of [build_report], and the host
    is the one the failing stage left. *)
Lemma build_report_after_dest_dir `{Processors} (blocks : Blocks) (name : string)
    (dest : option Path) (formatting : option AppFormatting) (overwrite : bool)
    (h : Host) (app_dir : Path) (h1 : Host) :
  build_dest_dir name dest overwrite h = (inr app_dir, h1) →
  build_report blocks name dest formatting overwrite h
  = (_ ← Pipeline_result
           (Pipeline_new (build_report_state blocks (app_dir // "assets"))
              ▷ PreProcessView ▷ ConvertXML
              ▷ ExportHTMLFileAssets app_dir name formatting);
     mret tt) h1.
Proof.
  intros Hd. unfold build_report.
  unfold mbind at 1. unfold M_bind at 1. by rewrite Hd.
Qed.

Lemma build_report_dest_dir_failed `{Processors} (blocks : Blocks) (name : string)
    (dest : option Path) (formatting : option AppFormatting) (overwrite : bool)
    (h : Host) (e : Exn) (h1 : Host) :
  build_dest_dir name dest overwrite h = (inl e, h1) →
  build_report blocks name dest formatting overwrite h = (inl e, h1).
Proof.
  intros Hd. unfold build_report.
  unfold mbind at 1. unfold M_bind at 1. by rewrite Hd.
Qed.

(** ** [build_report] *)

(** C1: when [<dest>/<name>] is a directory and [overwrite] is off,
    [build_report] fails with the [DPClientError] that says the app exists at
    that path, and the host, so every file and directory of the existing
    app, is exactly as it was. *)
Theorem build_report_refuses_existing `{Processors} (blocks : Blocks) (name : string)
    (dest : option Path) (formatting : option AppFormatting) (h : Host) :
  is_dir (fs h) (app_dir_of h dest name) = true →
  build_report blocks name dest formatting false h
  = (inl (DPClientError (app_exists_msg (app_dir_of h dest name))), h).
Proof.
  intros Hd. apply build_report_dest_dir_failed. by apply build_dest_dir_refused.
Qed.

Lemma build_report_refuses_existing_witness :
  is_dir (fs built_host) (app_dir_of built_host None "demo") = true ∧
  build_report sample_view "demo" None None false built_host
  = (inl (DPClientError
            "App exists at given path /home/demo -- set `overwrite=True` to allow overwrite"),
     built_host).
Proof.
  split.
  - vm_compute. reflexivity.
  - apply (build_report_refuses_existing sample_view "demo" None None built_host).
    vm_compute. reflexivity.
Defined.

(** C9: when [<dest>/<name>] exists as a regular file, [is_dir] is false, so
    nothing is removed and the "app exists" error is not raised; creating the
    [assets] directory fails with the file system's [NotADirectoryError],
    whatever [overwrite] is, and the host is unchanged. *)
Theorem build_report_dest_is_file `{Processors} (blocks : Blocks) (name : string)
    (dest : option Path) (formatting : option AppFormatting) (overwrite : bool)
    (content : FileData) (h : Host) :
  stat (fs h) (app_dir_of h dest name) = inr (File content) →
  is_dir (fs h) (app_dir_of h dest name) = false ∧
  build_report blocks name dest formatting overwrite h
  = (inl (NotADirectoryError (app_dir_of h dest name // "assets")), h).
Proof.
  intros Hf. split.
  - unfold is_dir. by rewrite Hf.
  - apply build_report_dest_dir_failed. by eapply build_dest_dir_file.
Qed.

Lemma build_report_dest_is_file_witness :
  stat (fs file_host) (app_dir_of file_host None "demo") = inr (File (RawData sample_image)) ∧
  is_dir (fs file_host) (app_dir_of file_host None "demo") = false ∧
  build_report sample_view "demo" None None true file_host
  = (inl (NotADirectoryError (mkpath ["home"; "demo"; "assets"])), file_host).
Proof.
  split.
  - vm_compute. reflexivity.
  - apply (build_report_dest_is_file sample_view "demo" None None true
             (RawData sample_image) file_host).
    vm_compute. reflexivity.
Defined.

(** C4: when [<dest>/<name>] is a directory and [overwrite] is on, the
    directory is removed as a whole before the pipeline runs: the first stage
    starts on a host in which the app directory holds its new, empty
    [assets] directory and nothing else, and in which everything outside the
    app directory is as before.  Whatever is in the directory at the end was
    put there by this run. *)
Theorem build_report_overwrite_fresh `{Processors} (blocks : Blocks) (name : string)
    (dest : option Path) (formatting : option AppFormatting) (h : Host) :
  is_dir (fs h) (app_dir_of h dest name) = true →
  ∃ h1 : Host,
    build_dest_dir name dest true h = (inr (app_dir_of h dest name), h1) ∧
    (∀ q, under (app_dir_of h dest name) q →
          fs h1 !! q = if decide (q = app_dir_of h dest name ∨
                                  q = app_dir_of h dest name // "assets")
                       then Some Dir else None) ∧
    (∀ q, ¬ under (app_dir_of h dest name) q → fs h1 !! q = fs h !! q) ∧
    build_report blocks name dest formatting true h
    = (_ ← Pipeline_result
             (Pipeline_new (build_report_state blocks (app_dir_of h dest name // "assets"))
                ▷ PreProcessView ▷ ConvertXML
                ▷ ExportHTMLFileAssets (app_dir_of h dest name) name formatting);
       mret tt) h1.
Proof.
  intros Hd. eexists. split; [by apply build_dest_dir_replaced|].
  set (app_dir := app_dir_of h dest name). cbn [fs set_fs].
  split; [|split].
  - intros q Hq. case_decide as Hc.
    + destruct Hc as [-> | ->].
      * rewrite lookup_insert_ne, lookup_insert_eq; [done|].
        unfold path_join. intros Heq. apply (f_equal length) in Heq. simpl in Heq. lia.
      * by rewrite lookup_insert_eq.
    + rewrite !lookup_insert_ne by naive_solver.
      by apply lookup_remove_under.
  - intros q Hq. rewrite !lookup_insert_ne.
    + by apply lookup_remove_outside.
    + intros <-. apply Hq, under_refl.
    + intros <-. apply Hq, under_child.
  - apply build_report_after_dest_dir. by apply build_dest_dir_replaced.
Qed.

Lemma build_report_overwrite_fresh_witness :
  is_dir (fs built_host) (app_dir_of built_host None "demo") = true ∧
  ∃ h1 : Host,
    build_dest_dir "demo" None true built_host = (inr (mkpath ["home"; "demo"]), h1) ∧
    fs h1 !! mkpath ["home"; "demo"; "assets"; "old.gz"] = None ∧
    fs h1 !! mkpath ["home"; "demo"; "index.html"] = None.
Proof.
  split; [vm_compute; reflexivity|].
  destruct (build_report_overwrite_fresh sample_view "demo" None None built_host)
    as (h1 & Hd & Hin & _ & _); [vm_compute; reflexivity|].
  exists h1. split; [exact Hd|]. split.
  - rewrite Hin; [vm_compute; reflexivity|]. by exists [ "old.gz"; "assets" ].
  - rewrite Hin; [vm_compute; reflexivity|]. by exists [ "index.html" ].
Defined.

(** C2, as stated, fails: the state [build_report] constructs does not carry
    the direct-file strategy. *)
Lemma build_report_not_direct_file_entry :
  file_entry_klass (build_report_state sample_view (mkpath ["home"; "demo"; "assets"]))
  ≠ DirectFileEntry.
Proof. discriminate. Qed.

(** C2, amended: [build_report] runs its pipeline on a new [ViewState] whose
    strategy is [GzipTmpFileEntry], the compressed temporary file entry, and
    whose directory is the [assets] directory of the app, so that the
    compressed assets are written there. *)
Theorem build_report_gzip_strategy `{Processors} (blocks : Blocks) (name : string)
    (dest : option Path) (formatting : option AppFormatting) (overwrite : bool) (h : Host) :
  (∀ assets_dir,
      build_report_state blocks assets_dir
      = mkViewState blocks GzipTmpFileEntry (Some assets_dir) [] NoResult) ∧
  build_report blocks name dest formatting overwrite h
  = (app_dir ← build_dest_dir name dest overwrite;
     s' ← run_stages [PreProcessView; ConvertXML; ExportHTMLFileAssets app_dir name formatting]
            (mkViewState blocks GzipTmpFileEntry (Some (app_dir // "assets")) [] NoResult);
     mret tt) h.
Proof.
  split; [done|].
  unfold build_report. run_M.
  destruct (build_dest_dir name dest overwrite h) as [[e|app_dir] h1]; [done|].
  rewrite pipe3_run_stages. run_M.
  by destruct (run_stages _ _ h1) as [[e|s'] h2].
Qed.

(** C3, as stated, fails: with the empty view, which validation rejects, the
    run on a fresh host leaves the new and empty [/home/demo/assets] behind:
    the destination is neither as it was before nor removed. *)
Lemma build_report_not_failure_atomic : ¬ failure_atomic spec_processors.
Proof.
  intros Hatomic.
  pose (h1 := (build_dest_dir "demo" None false fresh_host).2).
  assert (Hd : build_dest_dir "demo" None false fresh_host = (inr (mkpath ["home"; "demo"]), h1))
    by (vm_compute; reflexivity).
  assert (Hb : build_report BEnd "demo" None None false fresh_host
               = (inl (ValidationError "empty view"), h1))
    by (vm_compute; reflexivity).
  destruct (Hatomic _ _ _ _ _ _ _ _ _ _ Hd Hb) as [Hsame | Hgone].
  - specialize (Hsame (mkpath ["home"; "demo"; "assets"])).
    vm_compute in Hsame. by specialize (Hsame (ex_intro _ ["assets"] eq_refl)).
  - specialize (Hgone (mkpath ["home"; "demo"; "assets"])).
    vm_compute in Hgone. by specialize (Hgone (ex_intro _ ["assets"] eq_refl)).
Qed.

(** C3, amended: when a stage fails after the destination directory was
    built, [build_report] raises the stage's error and does nothing more:
    there is no cleanup and no rename, the host is left exactly as the failing
    stage left it; and the pipeline had started with the [assets] directory
    in place. *)
Theorem build_report_failure_no_cleanup `{Processors} (blocks : Blocks) (name : string)
    (dest : option Path) (formatting : option AppFormatting) (overwrite : bool)
    (h : Host) (app_dir : Path) (h1 : Host) (e : Exn) (h2 : Host) :
  build_dest_dir name dest overwrite h = (inr app_dir, h1) →
  run_stages [PreProcessView; ConvertXML; ExportHTMLFileAssets app_dir name formatting]
    (build_report_state blocks (app_dir // "assets")) h1 = (inl e, h2) →
  build_report blocks name dest formatting overwrite h = (inl e, h2) ∧
  is_dir (fs h1) (app_dir // "assets") = true.
Proof.
  intros Hd Hrun. split.
  - rewrite (build_report_after_dest_dir _ _ _ _ _ _ _ _ Hd).
    unfold mbind at 1. unfold M_bind at 1.
    rewrite pipe3_run_stages. run_M. by rewrite Hrun.
  - revert Hd. unfold build_dest_dir. run_M.
    set (d := app_dir_of h dest name).
    destruct ((if is_dir (fs h) d && overwrite then rmtree d
               else if is_dir (fs h) d && negb overwrite
                    then λ s, (inl (DPClientError (app_exists_msg d)), s)
                    else λ s, (inr tt, s)) h) as [[e0|[]] h0]; [done|].
    destruct (Path_mkdir true false (d // "assets") h0) as [[e1|[]] h1'] eqn:Hmk; [done|].
    intros [= <- <-].
    revert Hmk. unfold Path_mkdir, path_join. cbn [mkdir_parents]. unfold os_mkdir at 1.
    destruct (stat (fs h0) d) as [e1|[content|]] eqn:Hsd.
    + destruct e1; try done.
      destruct (mkdir_parents true d h0) as [[e2|[]] h3]; [done|].
      unfold mkdir_single, os_mkdir.
      destruct (stat (fs h3) d) as [e3|[content|]] eqn:Hs3.
      * by destruct e3.
      * done.
      * destruct (fs h3 !! ("assets" :: d)) eqn:Hl; [done|].
        intros [= <-]. unfold is_dir. cbn [stat fs set_fs].
        rewrite stat_insert_outside by apply not_under_child.
        by rewrite Hs3, lookup_insert_eq.
    + done.
    + destruct (fs h0 !! ("assets" :: d)) eqn:Hl; [done|].
      intros [= <-]. unfold is_dir. cbn [stat fs set_fs].
      rewrite stat_insert_outside by apply not_under_child.
      by rewrite Hsd, lookup_insert_eq.
Qed.

Lemma build_report_failure_no_cleanup_witness :
  ∃ h1 : Host,
    build_dest_dir "demo" None false fresh_host = (inr (mkpath ["home"; "demo"]), h1) ∧
    build_report BEnd "demo" None None false fresh_host
    = (inl (ValidationError "empty view"), h1) ∧
    is_dir (fs h1) (mkpath ["home"; "demo"; "assets"]) = true.
Proof.
  exists (build_dest_dir "demo" None false fresh_host).2.
  split; [vm_compute; reflexivity|].
  apply (build_report_failure_no_cleanup BEnd "demo" None None false fresh_host
           (mkpath ["home"; "demo"]) _ (ValidationError "empty view") _).
  - vm_compute. reflexivity.
  - vm_compute. reflexivity.
Defined.

(** ** [upload_report] *)

(** What [upload_report] posts: nothing, and then it fails, or one request,
    made of the pair the pipeline returned and of the keyword arguments
    computed under the session's [is_org] flag. *)
Lemma upload_report_requests `{Processors} (blocks : Blocks)
    (name description source_url : string) (publicly_visible : option bool)
    (tags : option (list string)) (project : option string) (open : bool)
    (formatting : option AppFormatting) (overwrite : bool) (kwargs : gmap string Value)
    (w : World) :
  let out := upload_report blocks name description source_url publicly_visible tags project
               open formatting overwrite kwargs w in
  let kw := upload_kwargs (config_is_org w) name description source_url publicly_visible
              tags project formatting kwargs in
  (failed out.1 ∧ requests out.2 = requests w) ∨
  (∃ view_xml file_list h1,
      Pipeline_result (Pipeline_new (upload_state blocks)
                         ▷ PreProcessView ▷ ConvertXML ▷ PreUploadProcessor)
        (announced (host w)) = (inr (ResUpload view_xml file_list), h1) ∧
      requests out.2 = requests w ++ [mkPayload file_list overwrite view_xml kw]).
Proof.
  cbn zeta. unfold upload_report, on_host, zoom, announced, failed.
  fold uploading_msg. run_M.
  destruct (display_msg uploading_msg (host w)) as [[e0|[]] h0] eqn:Hmsg;
    [by left; eauto|].
  cbn [host config_is_org snd].
  destruct (Pipeline_result _ h0) as [[e|r] h1] eqn:Hrun; [by left; eauto|].
  destruct r as [|doc|html|view_xml file_list]; cbn; try (by left; eauto).
  unfold post_with_files. cbn [host config_is_org server requests].
  case_bool_decide; [by left; eauto|].
  right. exists view_xml, file_list, h1. split; [done|].
  destruct (server w _) as [e|report]; [done|].
  destruct open; done.
Qed.

(** Every request of a call carries the keyword arguments of that call. *)
Lemma upload_report_metadata `{Processors} (blocks : Blocks)
    (name description source_url : string) (publicly_visible : option bool)
    (tags : option (list string)) (project : option string) (open : bool)
    (formatting : option AppFormatting) (overwrite : bool) (kwargs : gmap string Value)
    (w : World) :
  ∃ new : list Payload,
    requests (upload_report blocks name description source_url publicly_visible tags
                project open formatting overwrite kwargs w).2 = requests w ++ new ∧
    Forall (λ p, metadata p = upload_kwargs (config_is_org w) name description source_url
                                publicly_visible tags project formatting kwargs) new.
Proof.
  destruct (upload_report_requests blocks name description source_url publicly_visible
              tags project open formatting overwrite kwargs w)
    as [[_ Hreq] | (view_xml & file_list & h1 & _ & Hreq)].
  - exists []. by rewrite Hreq, app_nil_r.
  - eexists [_]. split; [exact Hreq|]. by constructor.
Qed.

Lemma string_length_app (a b : string) :
  String.length (a +:+ b) = String.length a + String.length b.
Proof. induction a as [|c a IH]; [done|]. simpl. by rewrite IH. Qed.

Lemma style_tag_neq (css : string) : style_tag css ≠ css.
Proof.
  intros Heq. apply (f_equal String.length) in Heq.
  unfold style_tag in Heq. rewrite !string_length_app in Heq. simpl in Heq. lia.
Qed.

Lemma style_tag_not_empty (css : string) : style_tag css ≠ "".
Proof. unfold style_tag. done. Qed.

Lemma dict_drop_empty_lookup (xs : gmap string Value) (k : string) (v : Value) :
  dict_drop_empty xs !! k = Some v ↔ xs !! k = Some v ∧ is_empty v = false.
Proof. unfold dict_drop_empty. by rewrite map_lookup_filter_Some. Qed.

Lemma dict_drop_empty_dropped (xs : gmap string Value) (k : string) (v : Value) :
  xs !! k = Some v → is_empty v = true → dict_drop_empty xs !! k = None.
Proof.
  intros Hk He. unfold dict_drop_empty. apply map_lookup_filter_None. right.
  intros v' Hv'. cbn. congruence.
Qed.

Ltac raw_lookup :=
  unfold upload_kwargs_raw, dict_update;
  match goal with
  | |- context [match ?f with Some _ => _ | None => _ end] => destruct f
  end;
  cbn [foldl fst snd];
  repeat (rewrite lookup_insert_ne by done);
  rewrite ?lookup_insert_eq.

Section upload_kwargs_fields.
Context (is_org : bool) (name description source_url : string)
  (publicly_visible : option bool) (tags : option (list string))
  (project : option string) (formatting : option AppFormatting)
  (kwargs : gmap string Value).

Local Abbreviation raw :=
  (upload_kwargs_raw is_org name description source_url publicly_visible tags project
     formatting kwargs).

Lemma raw_description : raw !! "description" = Some (VStr description).
Proof. by raw_lookup. Qed.

Lemma raw_source_url : raw !! "source_url" = Some (VStr source_url).
Proof. by raw_lookup. Qed.

Lemma raw_publicly_visible :
  raw !! "publicly_visible" = Some (from_option VBool VNone publicly_visible).
Proof. by raw_lookup. Qed.

Lemma raw_tags : raw !! "tags" = Some (VList (default [] tags)).
Proof. by raw_lookup. Qed.

Lemma raw_project : raw !! "project" = Some (from_option VStr VNone project).
Proof. by raw_lookup. Qed.
End upload_kwargs_fields.

Lemma raw_style_header (is_org : bool) (name description source_url : string)
    (publicly_visible : option bool) (tags : option (list string))
    (project : option string) (f : AppFormatting) (kwargs : gmap string Value) :
  upload_kwargs_raw is_org name description source_url publicly_visible tags project
    (Some f) kwargs !! "style_header"
  = Some (VStr (if is_org then style_tag (to_css f) else to_css f)).
Proof.
  unfold upload_kwargs_raw, dict_update. cbn [foldl fst snd].
  by rewrite lookup_insert_ne, lookup_insert_eq.
Qed.

(** C5: the keyword arguments [upload_report] sends are those it collected
    without the empty ones: an entry is sent exactly when its value is not
    empty, so an empty description, an empty source URL, an unset visibility,
    no tags (or an empty list) and an unset project are left out altogether;
    and every request of the call carries these keyword arguments. *)
Theorem upload_report_omits_empty `{Processors} (blocks : Blocks)
    (name description source_url : string) (publicly_visible : option bool)
    (tags : option (list string)) (project : option string) (open : bool)
    (formatting : option AppFormatting) (overwrite : bool) (kwargs : gmap string Value)
    (w : World) :
  (∀ k v,
      upload_kwargs (config_is_org w) name description source_url publicly_visible tags
        project formatting kwargs !! k = Some v ↔
      upload_kwargs_raw (config_is_org w) name description source_url publicly_visible tags
        project formatting kwargs !! k = Some v ∧ is_empty v = false) ∧
  (description = "" →
   upload_kwargs (config_is_org w) name description source_url publicly_visible tags
     project formatting kwargs !! "description" = None) ∧
  (source_url = "" →
   upload_kwargs (config_is_org w) name description source_url publicly_visible tags
     project formatting kwargs !! "source_url" = None) ∧
  (publicly_visible = None →
   upload_kwargs (config_is_org w) name description source_url publicly_visible tags
     project formatting kwargs !! "publicly_visible" = None) ∧
  (tags = None ∨ tags = Some [] →
   upload_kwargs (config_is_org w) name description source_url publicly_visible tags
     project formatting kwargs !! "tags" = None) ∧
  (project = None →
   upload_kwargs (config_is_org w) name description source_url publicly_visible tags
     project formatting kwargs !! "project" = None) ∧
  ∃ new : list Payload,
    requests (upload_report blocks name description source_url publicly_visible tags
                project open formatting overwrite kwargs w).2 = requests w ++ new ∧
    Forall (λ p, metadata p = upload_kwargs (config_is_org w) name description source_url
                                publicly_visible tags project formatting kwargs) new.
Proof.
  split; [intros k v; apply dict_drop_empty_lookup|].
  repeat split.
  - intros ->. eapply dict_drop_empty_dropped; [apply raw_description|done].
  - intros ->. eapply dict_drop_empty_dropped; [apply raw_source_url|done].
  - intros ->. eapply dict_drop_empty_dropped; [apply raw_publicly_visible|done].
  - intros [-> | ->]; (eapply dict_drop_empty_dropped; [apply raw_tags|done]).
  - intros ->. eapply dict_drop_empty_dropped; [apply raw_project|done].
  - apply upload_report_metadata.
Qed.

(** C10: with a formatting given, the [style_header] that is sent is the CSS
    inside a style tag exactly when the session's [is_org] flag is set; the
    keyword arguments under the two values of the flag differ, every request
    carries those computed under the flag of the world it is made in, and so
    one and the same call posts different payloads in two worlds that differ
    in the flag only. *)
Theorem upload_report_depends_on_is_org `{Processors} (blocks : Blocks)
    (name description source_url : string) (publicly_visible : option bool)
    (tags : option (list string)) (project : option string) (open : bool)
    (f : AppFormatting) (overwrite : bool) (kwargs : gmap string Value) (w : World) :
  (∀ is_org,
      upload_kwargs is_org name description source_url publicly_visible tags project
        (Some f) kwargs !! "style_header" = Some (VStr (style_tag (to_css f))) ↔
      is_org = true) ∧
  upload_kwargs true name description source_url publicly_visible tags project (Some f) kwargs
  ≠ upload_kwargs false name description source_url publicly_visible tags project (Some f)
      kwargs ∧
  (∃ new : list Payload,
      requests (upload_report blocks name description source_url publicly_visible tags
                  project open (Some f) overwrite kwargs w).2 = requests w ++ new ∧
      Forall (λ p, metadata p = upload_kwargs (config_is_org w) name description source_url
                                  publicly_visible tags project (Some f) kwargs) new) ∧
  requests (upload_report (H := spec_processors) sample_view "Report" "" "" None None None
              false (Some sample_formatting) false ∅ (sample_world true)).2
  ≠ requests (upload_report (H := spec_processors) sample_view "Report" "" "" None None None
                false (Some sample_formatting) false ∅ (sample_world false)).2.
Proof.
  assert (Hiff : ∀ is_org,
      upload_kwargs is_org name description source_url publicly_visible tags project
        (Some f) kwargs !! "style_header" = Some (VStr (style_tag (to_css f))) ↔
      is_org = true).
  { intros is_org. unfold upload_kwargs. rewrite dict_drop_empty_lookup, raw_style_header.
    destruct is_org; split.
    - done.
    - intros _. split; [done|]. cbn. apply bool_decide_eq_false, style_tag_not_empty.
    - intros [[= Heq] _]. by destruct (style_tag_neq (to_css f)).
    - done. }
  split; [exact Hiff|]. split; [|split].
  - intros Heq. pose proof (proj2 (Hiff true) eq_refl) as Ht.
    rewrite Heq in Ht. by apply Hiff in Ht.
  - apply upload_report_metadata.
  - intros Heq.
    apply (f_equal (fmap (λ p, metadata p !! "style_header"))) in Heq.
    vm_compute in Heq. discriminate.
Qed.

(** The upload pipeline that ends with the specification's
    [PreUploadProcessor] returns consistent pairs only. *)
Lemma spec_upload_pipeline_consistent (P : Processors) (s : ViewState) (h h1 : Host)
    (view_xml : XML) (file_list : FileList) :
  Pipeline_result (Pipeline_new s ▷ @PreProcessView P ▷ @ConvertXML P
                     ▷ SpecModel.PreUploadProcessor) h
  = (inr (ResUpload view_xml file_list), h1) →
  SpecModel.consistent view_xml file_list.
Proof.
  rewrite pipe3_run_stages. run_M. cbn [run_stages].
  destruct (@PreProcessView P s h) as [[e|s1] h2]; [done|].
  destruct (@ConvertXML P s1 h2) as [[e|s2] h3]; [done|].
  unfold SpecModel.PreUploadProcessor, SpecModel.with_document.
  destruct (result s2) as [|doc|html|doc fl]; try done.
  case_decide as Hc; [|done].
  run_M. cbn. by intros [= <- <- _].
Qed.

(** C8: whatever the first two stages are, when the pipeline ends with the
    specification's [PreUploadProcessor], every request [upload_report] posts
    has an attachment list whose names are exactly the references its
    document embeds; and when serialization hands over a document and a store
    that disagree, the call fails with [ConsistencyError] and nothing is
    posted. *)
Theorem upload_report_consistent (P : Processors) (blocks : Blocks)
    (name description source_url : string) (publicly_visible : option bool)
    (tags : option (list string)) (project : option string) (open : bool)
    (formatting : option AppFormatting) (overwrite : bool) (kwargs : gmap string Value)
    (w : World) :
  (∃ new : list Payload,
      requests (upload_report (H := with_spec_upload P) blocks name description source_url
                  publicly_visible tags project open formatting overwrite kwargs w).2
      = requests w ++ new ∧
      Forall (λ p, SpecModel.consistent (document p) (attachments p)) new) ∧
  (∀ s2 h2 doc,
      run_stages [@PreProcessView P; @ConvertXML P] (upload_state blocks) (announced (host w))
      = (inr s2, h2) →
      result s2 = ResXML doc →
      ¬ SpecModel.consistent doc (store s2) →
      (upload_report (H := with_spec_upload P) blocks name description source_url
         publicly_visible tags project open formatting overwrite kwargs w).1
      = inl ConsistencyError ∧
      requests (upload_report (H := with_spec_upload P) blocks name description source_url
                  publicly_visible tags project open formatting overwrite kwargs w).2
      = requests w).
Proof.
  split.
  - destruct (upload_report_requests (H := with_spec_upload P) blocks name description
                source_url publicly_visible tags project open formatting overwrite kwargs w)
      as [[_ Hreq] | (view_xml & file_list & h1 & Hrun & Hreq)].
    + exists []. by rewrite Hreq, app_nil_r.
    + eexists [_]. split; [exact Hreq|]. constructor; [|done].
      cbn [document attachments]. by eapply spec_upload_pipeline_consistent.
  - intros s2 h2 doc Hrun Hres Hbad.
    unfold upload_report, on_host, zoom. fold uploading_msg. run_M.
    unfold announced in Hrun.
    destruct (display_msg uploading_msg (host w)) as [[e0|[]] h0] eqn:Hmsg; [done|].
    cbn [snd host] in *. rewrite pipe3_run_stages. run_M. cbn [run_stages] in *.
    cbn [PreProcessView ConvertXML PreUploadProcessor with_spec_upload].
    destruct (@PreProcessView P (upload_state blocks) h0) as [[e|s1] h1]; [done|].
    destruct (@ConvertXML P s1 h1) as [[e|s2'] h2']; [done|].
    injection Hrun as -> ->.
    unfold SpecModel.PreUploadProcessor, SpecModel.with_document. rewrite Hres.
    case_decide; [done|]. run_M. done.
Qed.

(** ** [stringify_report] *)

(** Under the inline strategy the walk registers every asset without touching
    the host and leaves the state as it is. *)
Lemma convert_inline (b : Blocks) (s : ViewState) (h : Host) :
  file_entry_klass s = B64FileEntry →
  SpecModel.convert b s h = (inr (inline_xml b, s), h).
Proof.
  intros Hk. revert s Hk h.
  induction b as [|text next IH|data next IH|children IHc next IHn]; intros s Hk h.
  - done.
  - cbn [SpecModel.convert inline_xml]. run_M. by rewrite IH.
  - cbn [SpecModel.convert inline_xml]. unfold SpecModel.register. rewrite Hk.
    run_M. by rewrite IH.
  - cbn [SpecModel.convert inline_xml]. run_M. by rewrite IHc, IHn.
Qed.

(** C6: [stringify_report] constructs its state with [B64FileEntry], the
    inline strategy; with the specification's processors it leaves the host,
    and so the file system, exactly as it found it, and what it returns is the
    final HTML document, with every asset inline (or the validation error,
    for the empty view). *)
Theorem stringify_report_inline_no_fs (view : Blocks) (name : option string)
    (formatting : option AppFormatting) (h : Host) :
  file_entry_klass (inline_state view) = B64FileEntry ∧
  (stringify_report (H := spec_processors) view name formatting h).2 = h ∧
  (stringify_report (H := spec_processors) view name formatting h).1
  = match view with
    | BEnd => inl (ValidationError "empty view")
    | _ => inr (ResHTML (mkHTML name formatting (inline_xml view)))
    end.
Proof.
  split; [done|].
  unfold stringify_report. run_M. rewrite pipe3_run_stages. run_M. cbn [run_stages].
  cbn [PreProcessView ConvertXML ExportHTMLStringInlineAssets spec_processors].
  unfold SpecModel.PreProcessView. cbn [blocks inline_state ViewState_new].
  destruct view as [|text next|data next|children next]; [done| | |];
    unfold SpecModel.ConvertXML; run_M; cbn [blocks];
    rewrite convert_inline by done; done.
Qed.

(** ** The four operations and the order of their stages *)

(** C7: each public operation runs, on a [ViewState] it has just constructed
    with one strategy ([GzipTmpFileEntry] for [build_report] and
    [upload_report], [B64FileEntry] for [save_report] and
    [stringify_report]), the ordered stage list [PreProcessView],
    [ConvertXML] and one terminal export stage; a stage runs only when the
    ones before it succeeded. *)
Theorem operations_run_three_stages `{Processors} :
  (∀ blocks name dest formatting overwrite h,
      build_report blocks name dest formatting overwrite h
      = (app_dir ← build_dest_dir name dest overwrite;
         s' ← run_stages
                [PreProcessView; ConvertXML; ExportHTMLFileAssets app_dir name formatting]
                (ViewState_new blocks GzipTmpFileEntry (Some (app_dir // "assets")));
         mret tt) h) ∧
  (∀ blocks path open name formatting h,
      save_report blocks path open name formatting h
      = (s' ← run_stages
                [PreProcessView; ConvertXML; ExportHTMLInlineAssets path open name formatting]
                (ViewState_new blocks B64FileEntry None);
         mret tt) h) ∧
  (∀ blocks name formatting h,
      stringify_report blocks name formatting h
      = (s' ← run_stages
                [PreProcessView; ConvertXML; ExportHTMLStringInlineAssets name formatting]
                (ViewState_new blocks B64FileEntry None);
         mret (result s')) h) ∧
  (∀ blocks name description source_url publicly_visible tags project open formatting
     overwrite kwargs w,
      upload_report blocks name description source_url publicly_visible tags project open
        formatting overwrite kwargs w
      = (on_host (display_msg uploading_msg);;
         w0 ← get;
         s' ← on_host (run_stages [PreProcessView; ConvertXML; PreUploadProcessor]
                         (ViewState_new blocks GzipTmpFileEntry None));
         '(view_xml, file_list) ← unpack_pair (result s');
         report ← post_with_files file_list overwrite view_xml
                    (upload_kwargs (config_is_org w0) name description source_url
                       publicly_visible tags project formatting kwargs);
         (if open then on_host (open_in_browser (web_url report)) else mret tt);;
         on_host (display_msg ("Report successfully uploaded - view and share at " +:+
                               web_url report +:+ "."));;
         mret report) w).
Proof.
  repeat split.
  - intros. unfold build_report. run_M.
    destruct (build_dest_dir name dest overwrite h) as [[e|app_dir] h1]; [done|].
    rewrite pipe3_run_stages. run_M.
    by destruct (run_stages _ _ h1) as [[e|s'] h2].
  - intros. unfold save_report. run_M. rewrite pipe3_run_stages. run_M.
    by destruct (run_stages _ _ h) as [[e|s'] h2].
  - intros. unfold stringify_report. run_M. rewrite pipe3_run_stages. run_M.
    by destruct (run_stages _ _ h) as [[e|s'] h2].
  - intros. unfold upload_report, on_host, zoom. fold uploading_msg. run_M.
    destruct (display_msg uploading_msg (host w)) as [[e0|[]] h0]; [done|].
    cbn [host]. rewrite pipe3_run_stages. run_M.
    by destruct (run_stages _ _ h0) as [[e|s'] h2].
Qed.

(** ** Sample runs, with the specification's processors *)

(** A build into a fresh directory: the compressed asset is in [assets], the
    HTML shell refers to it by its name. *)
Example build_report_sample_run :
  let out := build_report (H := spec_processors) sample_view "demo" None None false
               fresh_host in
  out.1 = inr tt ∧
  fs out.2 = list_to_map
    [ (mkpath ["home"], Dir); (mkpath ["tmp"], Dir);
      (mkpath ["home"; "demo"], Dir);
      (mkpath ["home"; "demo"; "assets"], Dir);
      (mkpath ["home"; "demo"; "assets"; "asset-0.gz"], File (GzipData sample_image));
      (mkpath ["home"; "demo"; "index.html"],
       File (HtmlData (mkHTML (Some "demo") None
                         (XText "hello" (XAsset (RefName "asset-0.gz") XEnd))))) ].
Proof. split; vm_compute; reflexivity. Qed.

(** A build over the app of an earlier run, with [overwrite]: [old.gz] is
    gone and the directory holds what this run wrote. *)
Example build_report_sample_overwrite :
  let out := build_report (H := spec_processors) (BText "again" BEnd) "demo" None None true
               built_host in
  out.1 = inr tt ∧
  fs out.2 = list_to_map
    [ (mkpath ["home"], Dir); (mkpath ["tmp"], Dir);
      (mkpath ["home"; "demo"], Dir);
      (mkpath ["home"; "demo"; "assets"], Dir);
      (mkpath ["home"; "demo"; "index.html"],
       File (HtmlData (mkHTML (Some "demo") None (XText "again" XEnd)))) ].
Proof. split; vm_compute; reflexivity. Qed.

(** An upload: one request, with the compressed asset attached under the name
    the document embeds, and without the empty keyword arguments. *)
Example upload_report_sample_run :
  let out := upload_report (H := spec_processors) sample_view "Report" "" "" None None None
               false (Some sample_formatting) false ∅ (sample_world false) in
  out.1 = inr (mkReport "https://cloud.example/reports/1") ∧
  requests out.2
  = [ mkPayload [("asset-0.gz", sample_image)] false
        (XText "hello" (XAsset (RefName "asset-0.gz") XEnd))
        (list_to_map [ ("name", VStr "Report"); ("width", VStr "full");
                       ("style_header", VStr "a{}"); ("is_light_prose", VBool false) ]) ].
Proof. split; vm_compute; reflexivity. Qed.

(** A serialization that embeds a reference the store does not hold is caught
    before anything is posted. *)
Example upload_report_sample_dangling :
  let out := upload_report (H := with_spec_upload dangling_processors) sample_view "Report"
               "" "" None None None false None false ∅ (sample_world false) in
  out.1 = inl ConsistencyError ∧ requests out.2 = [].
Proof. split; vm_compute; reflexivity. Qed.

(** A keyword given twice is refused by the call itself. *)
Example upload_report_sample_document_kwarg :
  let out := upload_report (H := spec_processors) sample_view "Report" "" "" None None None
               false None false {[ "document" := VStr "mine" ]} (sample_world false) in
  out.1 = inl (TypeError "got multiple values for keyword argument") ∧ requests out.2 = [].
Proof. split; vm_compute; reflexivity. Qed.

(** * Further properties of the operations *)

(** ** Resolution and [mkdir(parents=True)] *)

Lemma under_cons_inv (q : Path) (c : string) (parent : Path) :
  under q (c :: parent) → q = c :: parent ∨ under q parent.
Proof.
  intros [k Hk]. destruct k as [|c' k]; [by left|].
  right. injection Hk as _ ->. by exists k.
Qed.

(** Resolution fails in two ways only. *)
Lemma stat_error (m : FS) (p : Path) (e : Exn) :
  stat m p = inl e → (∃ q, e = FileNotFoundError q) ∨ (∃ q, e = NotADirectoryError q).
Proof.
  induction p as [|c parent IH]; [done|]. cbn [stat].
  destruct (stat m parent) as [e'|[content|]].
  - intros [= <-]. by apply IH.
  - intros [= <-]. eauto.
  - destruct (m !! (c :: parent)); [done|]. intros [= <-]. eauto.
Qed.

Lemma stat_dir_lookup (m : FS) (p : Path) :
  stat m p = inr Dir → p = [] ∨ m !! p = Some Dir.
Proof.
  destruct p as [|c parent]; [by left|]. cbn [stat].
  destruct (stat m parent) as [e|[content|]]; try done.
  destruct (m !! (c :: parent)) as [n|]; [|done]. intros [= ->]. by right.
Qed.

(** A path that resolves has all the directories on its way. *)
Lemma stat_on_the_way (m : FS) (p : Path) (n : Node) (q : Path) :
  stat m p = inr n → on_the_way q p → is_Some (m !! q).
Proof.
  revert n. induction p as [|c parent IH]; intros n Hs [Hq Hu].
  - destruct Hu as [k Hk]. by destruct k, q.
  - cbn [stat] in Hs.
    destruct (stat m parent) as [e|[content|]] eqn:Hp; try done.
    destruct (m !! (c :: parent)) as [n'|] eqn:Hl; [|done].
    apply under_cons_inv in Hu as [-> | Hu]; [by eexists|].
    by eapply IH.
Qed.

(** In a well-formed file system every entry resolves to itself. *)
Lemma wf_lookup_stat (m : FS) (p : Path) (n : Node) :
  wf_fs m → p ≠ [] → m !! p = Some n → stat m p = inr n.
Proof.
  intros Hwf. revert n. induction p as [|c parent IH]; intros n Hne Hl; [done|].
  cbn [stat]. destruct (Hwf _ _ Hl) as [-> | Hpar].
  - cbn [stat]. by rewrite Hl.
  - destruct (decide (parent = [])) as [-> | Hp]; [cbn [stat]; by rewrite Hl|].
    rewrite (IH Dir Hp Hpar). by rewrite Hl.
Qed.

Lemma wf_insert_dir (m : FS) (c : string) (parent : Path) :
  wf_fs m → stat m parent = inr Dir → wf_fs (<[c :: parent := Dir]> m).
Proof.
  intros Hwf Hp q n Hq.
  assert (Hkeep : ∀ a, m !! a = Some Dir → <[c :: parent := Dir]> m !! a = Some Dir).
  { intros a Ha. destruct (decide (c :: parent = a)) as [<- | Hne].
    - apply lookup_insert_eq.
    - by rewrite lookup_insert_ne. }
  apply lookup_insert_Some in Hq as [[<- _] | [Hne Hq]].
  - cbn. apply stat_dir_lookup in Hp as [-> | Hp]; [by left|]. right. by apply Hkeep.
  - specialize (Hwf _ _ Hq). destruct q as [|c' parent']; [done|].
    cbn in *. destruct Hwf as [-> | Hwf]; [by left|]. right. by apply Hkeep.
Qed.

(** The target exists already. *)
Lemma mkdir_parents_present (exist_ok : bool) (p : Path) (n : Node) (h : Host) :
  stat (fs h) p = inr n →
  mkdir_parents exist_ok p h
  = if exist_ok && is_dir (fs h) p then (inr tt, h) else (inl (FileExistsError p), h).
Proof.
  intros Hs. destruct p as [|c parent]; [done|].
  cbn [mkdir_parents]. unfold os_mkdir. cbn [stat] in Hs.
  destruct (stat (fs h) parent) as [e|[content|]]; try done.
  destruct (fs h !! (c :: parent)); done.
Qed.

(** A regular file is in the way. *)
Lemma mkdir_parents_blocked (exist_ok : bool) (p q : Path) (h : Host) :
  stat (fs h) p = inl (NotADirectoryError q) →
  mkdir_parents exist_ok p h = (inl (NotADirectoryError q), h).
Proof.
  intros Hs. destruct p as [|c parent]; [done|].
  assert (Hd : is_dir (fs h) (c :: parent) = false) by (unfold is_dir; by rewrite Hs).
  cbn [mkdir_parents]. unfold os_mkdir. cbn [stat] in Hs.
  destruct (stat (fs h) parent) as [e|[content|]].
  - injection Hs as ->. rewrite Hd, andb_false_r. done.
  - injection Hs as <-. rewrite Hd, andb_false_r. done.
  - destruct (fs h !! (c :: parent)); done.
Qed.

(** Directories are missing and nothing is in the way: they are created, from
    the outermost missing one down to the target, and nothing else changes. *)
Lemma mkdir_parents_missing (exist_ok : bool) (p q0 : Path) (h : Host) :
  wf_fs (fs h) →
  stat (fs h) p = inl (FileNotFoundError q0) →
  ∃ m' : FS,
    mkdir_parents exist_ok p h = (inr tt, set_fs (λ _, m') h) ∧
    stat m' p = inr Dir ∧
    wf_fs m' ∧
    ∀ q, m' !! q = match fs h !! q with
                   | Some n => Some n
                   | None => if decide (on_the_way q p) then Some Dir else None
                   end.
Proof.
  revert exist_ok q0 h. induction p as [|c parent IH]; intros exist_ok q0 h Hwf Hs; [done|].
  assert (Hnone : fs h !! (c :: parent) = None).
  { destruct (fs h !! (c :: parent)) as [n|] eqn:Hl; [|done].
    rewrite (wf_lookup_stat _ _ n Hwf) in Hs; done. }
  cbn [stat] in Hs. cbn [mkdir_parents]. unfold os_mkdir at 1.
  destruct (stat (fs h) parent) as [e|[content|]] eqn:Hp; [|done|].
  - injection Hs as ->.
    destruct (IH true q0 h Hwf Hp) as (m1 & Hrun & Hdir & Hwf1 & Hlook).
    rewrite Hrun. unfold mkdir_single, os_mkdir. cbn [fs set_fs].
    rewrite Hdir.
    assert (Hnone1 : m1 !! (c :: parent) = None).
    { rewrite Hlook, Hnone. rewrite decide_False; [done|].
      intros [_ Hu]. by apply not_under_child in Hu. }
    rewrite Hnone1. exists (<[c :: parent := Dir]> m1).
    split; [by destruct h|]. split; [|split].
    + cbn [stat]. rewrite stat_insert_outside by apply not_under_child.
      by rewrite Hdir, lookup_insert_eq.
    + by apply wf_insert_dir.
    + intros q. destruct (decide (c :: parent = q)) as [<- | Hne].
      * rewrite lookup_insert_eq, Hnone. rewrite decide_True; [done|].
        split; [done|apply under_refl].
      * rewrite lookup_insert_ne by done. rewrite Hlook.
        destruct (fs h !! q); [done|].
        destruct (decide (on_the_way q parent)) as [[Hq Hu] | Hno].
        -- rewrite decide_True; [done|]. split; [done|]. by apply under_parent.
        -- rewrite decide_False; [done|]. intros [Hq Hu]. apply Hno. split; [done|].
           apply under_cons_inv in Hu as [-> | Hu]; done.
  - rewrite Hnone. exists (<[c :: parent := Dir]> (fs h)).
    split; [by destruct h|]. split; [|split].
    + cbn [stat]. rewrite stat_insert_outside by apply not_under_child.
      by rewrite Hp, lookup_insert_eq.
    + by apply wf_insert_dir.
    + intros q. destruct (decide (c :: parent = q)) as [<- | Hne].
      * rewrite lookup_insert_eq, Hnone. rewrite decide_True; [done|].
        split; [done|apply under_refl].
      * rewrite lookup_insert_ne by done.
        destruct (fs h !! q) as [n|] eqn:Hq; [done|].
        rewrite decide_False; [done|]. intros [Hq0 Hu].
        apply under_cons_inv in Hu as [-> | Hu]; [done|].
        destruct (stat_on_the_way (fs h) parent Dir q Hp) as [n Hn]; [done|congruence].
Qed.

Lemma set_fs_id (h : Host) : set_fs (λ _, fs h) h = h.
Proof. by destruct h. Qed.

Lemma set_fs_set_fs (m1 m2 : FS) (h : Host) :
  set_fs (λ _, m2) (set_fs (λ _, m1) h) = set_fs (λ _, m2) h.
Proof. done. Qed.

Lemma lands_on_fallback (exist_ok : bool) (e : Exn) (p : Path) (h : Host) :
  lands_on p h (if exist_ok && is_dir (fs h) p then (inr tt, h) else (inl e, h)).
Proof.
  exists (fs h). destruct (exist_ok && is_dir (fs h) p) eqn:Hd; cbn [fst snd].
  - split; [by rewrite set_fs_id|]. intros _. by apply andb_prop in Hd as [_ Hd].
  - split; [by rewrite set_fs_id|]. done.
Qed.

Lemma lands_on_raise (e : Exn) (p : Path) (h : Host) : lands_on p h (inl e, h).
Proof. exists (fs h). split; [by rewrite set_fs_id|]. done. Qed.

Lemma lands_on_insert (c : string) (parent : Path) (h : Host) :
  stat (fs h) parent = inr Dir →
  lands_on (c :: parent) h (inr tt, set_fs (insert (c :: parent) Dir) h).
Proof.
  intros Hp. exists (<[c :: parent := Dir]> (fs h)). split; [done|].
  intros _. unfold is_dir. cbn [stat].
  rewrite stat_insert_outside by apply not_under_child.
  by rewrite Hp, lookup_insert_eq.
Qed.

Lemma mkdir_single_lands (exist_ok : bool) (p : Path) (h : Host) :
  lands_on p h (mkdir_single exist_ok p h).
Proof.
  unfold mkdir_single, os_mkdir. destruct p as [|c parent].
  - apply lands_on_fallback.
  - destruct (stat (fs h) parent) as [e|[content|]] eqn:Hp.
    + destruct e; first [apply lands_on_raise | apply lands_on_fallback].
    + apply lands_on_fallback.
    + destruct (fs h !! (c :: parent)).
      * apply lands_on_fallback.
      * by apply lands_on_insert.
Qed.

(** A successful [mkdir(parents=True)] ends with the target as a directory,
    and only the file system of the host is touched. *)
Lemma mkdir_parents_lands (exist_ok : bool) (p : Path) (h : Host) :
  lands_on p h (mkdir_parents exist_ok p h).
Proof.
  revert exist_ok h. induction p as [|c parent IH]; intros exist_ok h.
  - apply lands_on_fallback.
  - cbn [mkdir_parents]. unfold os_mkdir at 1.
    destruct (stat (fs h) parent) as [e|[content|]] eqn:Hp.
    + destruct e; try apply lands_on_fallback.
      destruct (IH true h) as (m1 & Hh1 & _).
      destruct (mkdir_parents true parent h) as [[e1|[]] h1]; cbn [fst snd] in *.
      * exists m1. split; done.
      * destruct (mkdir_single_lands exist_ok (c :: parent) h1) as (m2 & Hh2 & Hok).
        exists m2. split; [|done]. by rewrite Hh2, Hh1.
    + apply lands_on_fallback.
    + destruct (fs h !! (c :: parent)).
      * apply lands_on_fallback.
      * by apply lands_on_insert.
Qed.

(** ** [build_report]: the destination directory *)

Lemma build_dest_dir_not_dir (name : string) (dest : option Path) (overwrite : bool)
    (h : Host) :
  is_dir (fs h) (app_dir_of h dest name) = false →
  build_dest_dir name dest overwrite h
  = (Path_mkdir true false (app_dir_of h dest name // "assets");;
     mret (app_dir_of h dest name)) h.
Proof. intros Hd. unfold build_dest_dir. run_M. by rewrite Hd. Qed.

Lemma build_dest_dir_blocked (name : string) (dest : option Path) (overwrite : bool)
    (q : Path) (h : Host) :
  stat (fs h) (app_dir_of h dest name) = inl (NotADirectoryError q) →
  build_dest_dir name dest overwrite h = (inl (NotADirectoryError q), h).
Proof.
  intros Hs. rewrite build_dest_dir_not_dir by (unfold is_dir; by rewrite Hs).
  run_M. unfold Path_mkdir, path_join.
  rewrite (mkdir_parents_blocked _ _ q); [done|]. cbn [stat]. by rewrite Hs.
Qed.

Lemma build_dest_dir_missing (name : string) (dest : option Path) (overwrite : bool)
    (q0 : Path) (h : Host) :
  wf_fs (fs h) →
  stat (fs h) (app_dir_of h dest name) = inl (FileNotFoundError q0) →
  ∃ m' : FS,
    build_dest_dir name dest overwrite h
    = (inr (app_dir_of h dest name), set_fs (λ _, m') h) ∧
    stat m' (app_dir_of h dest name // "assets") = inr Dir ∧
    wf_fs m' ∧
    ∀ q, m' !! q = match fs h !! q with
                   | Some n => Some n
                   | None => if decide (on_the_way q (app_dir_of h dest name // "assets"))
                             then Some Dir else None
                   end.
Proof.
  intros Hwf Hs. rewrite build_dest_dir_not_dir by (unfold is_dir; by rewrite Hs).
  run_M. unfold Path_mkdir, path_join.
  destruct (mkdir_parents_missing false ("assets" :: app_dir_of h dest name) q0 h Hwf)
    as (m' & Hrun & Hrest); [cbn [stat]; by rewrite Hs|].
  exists m'. by rewrite Hrun.
Qed.

(** Settle a decidable proposition by evaluation. *)
Ltac by_decide :=
  match goal with
  | |- ?P => apply (bool_decide_unpack P); vm_compute; exact I
  end.

(** X1: when [<dest>/<name>] is not an existing directory, [overwrite] makes
    no difference to [build_report]. *)
Theorem build_report_overwrite_irrelevant `{Processors} (blocks : Blocks) (name : string)
    (dest : option Path) (formatting : option AppFormatting) (h : Host) :
  is_dir (fs h) (app_dir_of h dest name) = false →
  build_report blocks name dest formatting true h
  = build_report blocks name dest formatting false h.
Proof.
  intros Hd. unfold build_report. run_M.
  by rewrite !build_dest_dir_not_dir.
Qed.

Lemma build_report_overwrite_irrelevant_witness :
  is_dir (fs fresh_host) (app_dir_of fresh_host None "demo") = false ∧
  build_report (H := spec_processors) sample_view "demo" None None true fresh_host
  = build_report (H := spec_processors) sample_view "demo" None None false fresh_host.
Proof.
  split; [vm_compute; reflexivity|].
  apply (build_report_overwrite_irrelevant sample_view "demo" None None fresh_host).
  vm_compute. reflexivity.
Defined.

(** X2: on a well-formed file system, when the destination or directories
    above it are missing and no regular file is in the way, the destination
    is prepared whatever [overwrite] is: the missing directories down to
    [<dest>/<name>/assets] are created, every entry that existed is kept as
    it was, nothing else appears, and the pipeline starts on that host. *)
Theorem build_report_creates_missing `{Processors} (blocks : Blocks) (name : string)
    (dest : option Path) (formatting : option AppFormatting) (overwrite : bool)
    (q0 : Path) (h : Host) :
  wf_fs (fs h) →
  stat (fs h) (app_dir_of h dest name) = inl (FileNotFoundError q0) →
  ∃ m' : FS,
    build_dest_dir name dest overwrite h
    = (inr (app_dir_of h dest name), set_fs (λ _, m') h) ∧
    is_dir m' (app_dir_of h dest name // "assets") = true ∧
    wf_fs m' ∧
    (∀ q, m' !! q = match fs h !! q with
                    | Some n => Some n
                    | None => if decide (on_the_way q (app_dir_of h dest name // "assets"))
                              then Some Dir else None
                    end) ∧
    build_report blocks name dest formatting overwrite h
    = (_ ← Pipeline_result
             (Pipeline_new (build_report_state blocks (app_dir_of h dest name // "assets"))
                ▷ PreProcessView ▷ ConvertXML
                ▷ ExportHTMLFileAssets (app_dir_of h dest name) name formatting);
       mret tt) (set_fs (λ _, m') h).
Proof.
  intros Hwf Hs.
  destruct (build_dest_dir_missing name dest overwrite q0 h Hwf Hs)
    as (m' & Hrun & Hdir & Hwf' & Hlook).
  exists m'. split; [done|]. split; [by apply is_dir_stat|]. split; [done|].
  split; [done|]. by apply build_report_after_dest_dir.
Qed.

Lemma build_report_creates_missing_witness :
  wf_fs (fs fresh_host) ∧
  ∃ m' : FS,
    build_dest_dir "site" (Some (mkpath ["srv"; "www"])) false fresh_host
    = (inr (mkpath ["srv"; "www"; "site"]), set_fs (λ _, m') fresh_host) ∧
    m' !! mkpath ["srv"] = Some Dir ∧
    m' !! mkpath ["srv"; "www"; "site"; "assets"] = Some Dir ∧
    m' !! mkpath ["home"] = Some Dir.
Proof.
  split; [by_decide|].
  destruct (build_report_creates_missing (H := spec_processors) sample_view "site"
              (Some (mkpath ["srv"; "www"])) None false (mkpath ["srv"]) fresh_host)
    as (m' & Hrun & _ & _ & Hlook & _).
  - by_decide.
  - vm_compute. reflexivity.
  - exists m'. split; [exact Hrun|].
    rewrite !Hlook. repeat split; vm_compute; reflexivity.
Defined.





(** X5: when the destination has been prepared, the value is
    [<dest>/<name>], both it and its [assets] directory are directories, the
    host differs from the one before in its file system only, and a build
    into the same destination without [overwrite] is refused from there. *)
Theorem build_dest_dir_success `{Processors} (name : string) (dest : option Path)
    (overwrite : bool) (h : Host) (app_dir : Path) (h1 : Host)
    (blocks : Blocks) (formatting : option AppFormatting) :
  build_dest_dir name dest overwrite h = (inr app_dir, h1) →
  app_dir = app_dir_of h dest name ∧
  is_dir (fs h1) app_dir = true ∧
  is_dir (fs h1) (app_dir // "assets") = true ∧
  h1 = set_fs (λ _, fs h1) h ∧
  build_report blocks name dest formatting false h1
  = (inl (DPClientError (app_exists_msg app_dir)), h1).
Proof.
  intros Hrun.
  assert (Hpost : app_dir = app_dir_of h dest name ∧
                  is_dir (fs h1) (app_dir // "assets") = true ∧
                  h1 = set_fs (λ _, fs h1) h).
  { revert Hrun. unfold build_dest_dir. run_M.
    set (d := app_dir_of h dest name).
    assert (Hprep : ∃ r m0,
      (if is_dir (fs h) d && overwrite then rmtree d
       else if is_dir (fs h) d && negb overwrite
            then λ s, (inl (DPClientError (app_exists_msg d)), s)
            else λ s, (inr tt, s)) h = (r, set_fs (λ _, m0) h)).
    { destruct (is_dir (fs h) d && overwrite).
      - unfold rmtree. destruct (stat (fs h) d) as [e|[content|]];
          eexists _, _; first [by rewrite set_fs_id | done].
      - destruct (is_dir (fs h) d && negb overwrite);
          eexists _, _; by rewrite set_fs_id. }
    destruct Hprep as (r & m0 & ->). destruct r as [e|[]]; [done|].
    destruct (mkdir_parents_lands false (d // "assets") (set_fs (λ _, m0) h))
      as (m' & Hh' & Hok).
    unfold Path_mkdir.
    destruct (mkdir_parents false (d // "assets") (set_fs (λ _, m0) h)) as [[e|[]] h'];
      [done|].
    cbn [fst snd] in *. intros [= <- <-]. subst h'.
    split; [done|]. split; [by apply Hok|]. done. }
  destruct Hpost as (Ha & Hassets & Hh1).
  assert (Hdir : is_dir (fs h1) app_dir = true).
  { apply is_dir_stat. by eapply is_dir_parent. }
  repeat split; try done.
  assert (Hsame : app_dir_of h1 dest name = app_dir).
  { rewrite Ha, Hh1. done. }
  apply build_report_dest_dir_failed.
  rewrite <- Hsame. apply build_dest_dir_refused. by rewrite Hsame.
Qed.

Lemma build_dest_dir_success_witness :
  ∃ h1 : Host,
    build_dest_dir "demo" None false fresh_host = (inr (mkpath ["home"; "demo"]), h1) ∧
    is_dir (fs h1) (mkpath ["home"; "demo"; "assets"]) = true ∧
    build_report (H := spec_processors) sample_view "demo" None None false h1
    = (inl (DPClientError (app_exists_msg (mkpath ["home"; "demo"]))), h1).
Proof.
  exists (build_dest_dir "demo" None false fresh_host).2.
  destruct (build_dest_dir_success (H := spec_processors) "demo" None false fresh_host
              (mkpath ["home"; "demo"]) (build_dest_dir "demo" None false fresh_host).2
              sample_view None) as (_ & _ & Hassets & _ & Hagain).
  - vm_compute. reflexivity.
  - split; [vm_compute; reflexivity|]. split; [exact Hassets|exact Hagain].
Defined.

(** X6: [overwrite] is destructive even when the build fails: when the
    destination is a directory, [overwrite] is on and a stage fails leaving
    the file system as it found it, [build_report] raises that error and the
    app directory holds its new, empty [assets] directory and nothing of the
    earlier app. *)
Theorem build_report_overwrite_failure_loses_app `{Processors} (blocks : Blocks)
    (name : string) (dest : option Path) (formatting : option AppFormatting)
    (h h1 : Host) (e : Exn) (h2 : Host) :
  is_dir (fs h) (app_dir_of h dest name) = true →
  build_dest_dir name dest true h = (inr (app_dir_of h dest name), h1) →
  run_stages [PreProcessView; ConvertXML;
              ExportHTMLFileAssets (app_dir_of h dest name) name formatting]
    (build_report_state blocks (app_dir_of h dest name // "assets")) h1 = (inl e, h2) →
  fs h2 = fs h1 →
  build_report blocks name dest formatting true h = (inl e, h2) ∧
  ∀ q, under (app_dir_of h dest name) q →
       fs h2 !! q = if decide (q = app_dir_of h dest name ∨
                               q = app_dir_of h dest name // "assets")
                    then Some Dir else None.
Proof.
  intros Hd Hprep Hrun Hfs. split.
  - rewrite (build_report_after_dest_dir _ _ _ _ _ _ _ _ Hprep).
    run_M. rewrite pipe3_run_stages. run_M. by rewrite Hrun.
  - rewrite build_dest_dir_replaced in Hprep by done.
    injection Hprep as <-. rewrite Hfs. cbn [fs set_fs].
    set (app_dir := app_dir_of h dest name).
    intros q Hq. case_decide as Hc.
    + destruct Hc as [-> | ->].
      * rewrite lookup_insert_ne, lookup_insert_eq; [done|].
        unfold path_join. intros Heq. apply (f_equal length) in Heq. simpl in Heq. lia.
      * by rewrite lookup_insert_eq.
    + rewrite !lookup_insert_ne by naive_solver.
      by apply lookup_remove_under.
Qed.

Lemma build_report_overwrite_failure_loses_app_witness :
  is_dir (fs built_host) (app_dir_of built_host None "demo") = true ∧
  ∃ h2 : Host,
    build_report (H := spec_processors) BEnd "demo" None None true built_host
    = (inl (ValidationError "empty view"), h2) ∧
    fs h2 !! mkpath ["home"; "demo"; "index.html"] = None ∧
    fs h2 !! mkpath ["home"; "demo"; "assets"; "old.gz"] = None.
Proof.
  split; [vm_compute; reflexivity|].
  exists (build_dest_dir "demo" None true built_host).2.
  destruct (build_report_overwrite_failure_loses_app (H := spec_processors) BEnd "demo"
              None None built_host (build_dest_dir "demo" None true built_host).2
              (ValidationError "empty view") (build_dest_dir "demo" None true built_host).2)
    as [Hrun Hlook].
  - vm_compute. reflexivity.
  - vm_compute. reflexivity.
  - vm_compute. reflexivity.
  - reflexivity.
  - split; [exact Hrun|]. split.
    + rewrite Hlook; [vm_compute; reflexivity|]. by exists ["index.html"].
    + rewrite Hlook; [vm_compute; reflexivity|]. by exists ["old.gz"; "assets"].
Defined.

(** ** [save_report] and [stringify_report] *)

(** X7: [save_report] and [stringify_report] share their first two stages:
    when validation or serialization of the view fails, both raise that
    error and leave the host as the failing stage left it, whatever the
    path, the name, the formatting and [open] are; the export stage is not
    run, so no file is written and nothing is opened by it. *)
Theorem inline_reports_fail_alike `{Processors} (blocks : Blocks) (path : Path)
    (open : bool) (name : string) (formatting : option AppFormatting)
    (name' : option string) (formatting' : option AppFormatting)
    (h : Host) (e : Exn) (h' : Host) :
  run_stages [PreProcessView; ConvertXML] (inline_state blocks) h = (inl e, h') →
  save_report blocks path open name formatting h = (inl e, h') ∧
  stringify_report blocks name' formatting' h = (inl e, h').
Proof.
  intros Hrun. unfold save_report, stringify_report. run_M.
  rewrite !pipe3_run_stages. run_M. cbn [run_stages] in *.
  destruct (PreProcessView (inline_state blocks) h) as [[e1|s1] h1]; [by injection Hrun as -> ->|].
  destruct (ConvertXML s1 h1) as [[e2|s2] h2]; [by injection Hrun as -> ->|done].
Qed.

Lemma inline_reports_fail_alike_witness :
  save_report (H := spec_processors) BEnd (mkpath ["home"; "report.html"]) true "Report"
    None fresh_host = (inl (ValidationError "empty view"), fresh_host) ∧
  stringify_report (H := spec_processors) BEnd None None fresh_host
  = (inl (ValidationError "empty view"), fresh_host).
Proof.
  apply (inline_reports_fail_alike (H := spec_processors) BEnd
           (mkpath ["home"; "report.html"]) true "Report" None None None fresh_host
           (ValidationError "empty view") fresh_host).
  vm_compute. reflexivity.
Defined.

(** ** [upload_report]: the outcomes *)

Section upload_outcomes.
Context `{Processors}.
Context (blocks : Blocks) (name description source_url : string)
  (publicly_visible : option bool) (tags : option (list string))
  (project : option string) (open : bool) (formatting : option AppFormatting)
  (overwrite : bool) (kwargs : gmap string Value) (w : World).

Local Abbreviation the_upload :=
  (upload_report blocks name description source_url publicly_visible tags project open
     formatting overwrite kwargs w).

Local Abbreviation the_kwargs :=
  (upload_kwargs (config_is_org w) name description source_url publicly_visible tags
     project formatting kwargs).

Local Abbreviation the_pipeline :=
  (Pipeline_result (Pipeline_new (upload_state blocks)
                      ▷ PreProcessView ▷ ConvertXML ▷ PreUploadProcessor)
     (announced (host w))).


(** X9: when the server refuses the request, [upload_report] raises the
    server's error; the request has gone out, but no browser is opened and no
    success message is shown. *)
Theorem upload_report_server_error (view_xml : XML) (file_list : FileList) (h1 : Host)
    (e : Exn) :
  the_pipeline = (inr (ResUpload view_xml file_list), h1) →
  the_kwargs !! "overwrite" = None →
  the_kwargs !! "document" = None →
  server w (mkPayload file_list overwrite view_xml the_kwargs) = inl e →
  the_upload
  = (inl e,
     mkWorld h1 (config_is_org w) (server w)
       (requests w ++ [mkPayload file_list overwrite view_xml the_kwargs])).
Proof.
  intros Hrun Ho Hd Hsrv.
  unfold upload_report, on_host, zoom. fold uploading_msg. run_M.
  unfold announced in Hrun. unfold display_msg, modify in *. cbn [fst snd host] in *.
  rewrite Hrun. cbn [unpack_pair]. run_M.
  unfold post_with_files. cbn [host config_is_org server requests].
  rewrite bool_decide_eq_false_2.
  - by rewrite Hsrv.
  - rewrite Ho, Hd. intros [[? ?] | [? ?]]; done.
Qed.

(** X10: when a stage of the pipeline fails, [upload_report] raises that
    error: nothing is posted, and the world is the one before with the host
    as the failing stage left it. *)
Theorem upload_report_pipeline_error (e : Exn) (h1 : Host) :
  the_pipeline = (inl e, h1) →
  the_upload = (inl e, mkWorld h1 (config_is_org w) (server w) (requests w)).
Proof.
  intros Hrun.
  unfold upload_report, on_host, zoom. fold uploading_msg. run_M.
  unfold announced in Hrun. unfold display_msg, modify in *. cbn [fst snd host] in *.
  by rewrite Hrun.
Qed.

(** X11: a keyword argument named [document] or [overwrite] that survives the
    stripping is given twice to [Report.post_with_files]: the call is a
    [TypeError], raised after the pipeline has run, and nothing is posted. *)
Theorem upload_report_keyword_twice (view_xml : XML) (file_list : FileList) (h1 : Host) :
  the_pipeline = (inr (ResUpload view_xml file_list), h1) →
  is_Some (the_kwargs !! "overwrite") ∨ is_Some (the_kwargs !! "document") →
  the_upload
  = (inl (TypeError "got multiple values for keyword argument"),
     mkWorld h1 (config_is_org w) (server w) (requests w)).
Proof.
  intros Hrun Htwice.
  unfold upload_report, on_host, zoom. fold uploading_msg. run_M.
  unfold announced in Hrun. unfold display_msg, modify in *. cbn [fst snd host] in *.
  rewrite Hrun. cbn [unpack_pair]. run_M.
  unfold post_with_files. cbn [host config_is_org server requests].
  by rewrite bool_decide_eq_true_2.
Qed.

End upload_outcomes.


Lemma upload_report_server_error_witness :
  let out := upload_report (H := spec_processors) sample_view "Report" "" "" None None None
               true None false ∅ refusing_world in
  out.1 = inl (TransportError "503 Service Unavailable") ∧
  browser (host out.2) = [] ∧
  console (host out.2) = [uploading_msg] ∧
  length (requests out.2) = 1.
Proof.
  cbn zeta.
  rewrite (upload_report_server_error (H := spec_processors) sample_view "Report" "" "" None
             None None true None false ∅ refusing_world
             (XText "hello" (XAsset (RefName "asset-0.gz") XEnd))
             [("asset-0.gz", sample_image)]
             (Pipeline_result (Pipeline_new (upload_state sample_view)
                                 ▷ PreProcessView ▷ ConvertXML ▷ PreUploadProcessor)
                (announced fresh_host)).2
             (TransportError "503 Service Unavailable")).
  - repeat split; vm_compute; reflexivity.
  - vm_compute. reflexivity.
  - vm_compute. reflexivity.
  - vm_compute. reflexivity.
  - vm_compute. reflexivity.
Defined.

Lemma upload_report_pipeline_error_witness :
  let out := upload_report (H := spec_processors) BEnd "Report" "" "" None None None
               true None false ∅ (sample_world false) in
  out.1 = inl (ValidationError "empty view") ∧
  requests out.2 = [] ∧
  browser (host out.2) = [].
Proof.
  cbn zeta.
  rewrite (upload_report_pipeline_error (H := spec_processors) BEnd "Report" "" "" None
             None None true None false ∅ (sample_world false)
             (ValidationError "empty view") (announced fresh_host)).
  - repeat split; vm_compute; reflexivity.
  - vm_compute. reflexivity.
Defined.

Lemma upload_report_keyword_twice_witness :
  let out := upload_report (H := spec_processors) sample_view "Report" "" "" None None None
               false None false {[ "document" := VStr "mine" ]} (sample_world false) in
  out.1 = inl (TypeError "got multiple values for keyword argument") ∧
  requests out.2 = [] ∧
  is_Some (fs (host out.2) !! mkpath ["tmp"; "asset-0.gz"]).
Proof.
  cbn zeta.
  rewrite (upload_report_keyword_twice (H := spec_processors) sample_view "Report" "" ""
             None None None false None false {[ "document" := VStr "mine" ]}
             (sample_world false)
             (XText "hello" (XAsset (RefName "asset-0.gz") XEnd))
             [("asset-0.gz", sample_image)]
             (Pipeline_result (Pipeline_new (upload_state sample_view)
                                 ▷ PreProcessView ▷ ConvertXML ▷ PreUploadProcessor)
                (announced fresh_host)).2).
  - split; [reflexivity|]. split; [reflexivity|]. vm_compute. eexists. reflexivity.
  - vm_compute. reflexivity.
  - right. vm_compute. eexists. reflexivity.
Defined.

(** ** [upload_report]: the keyword arguments *)

(** X12: without a formatting, [upload_report] does not depend on the
    session's [is_org] flag: in two worlds that differ in the flag only, the
    call returns the same result, leaves the same host and posts the same
    requests. *)
Theorem upload_report_no_formatting_ignores_is_org `{Processors} (blocks : Blocks)
    (name description source_url : string) (publicly_visible : option bool)
    (tags : option (list string)) (project : option string) (open : bool)
    (overwrite : bool) (kwargs : gmap string Value) (w : World) (is_org : bool) :
  (upload_report blocks name description source_url publicly_visible tags project open None
     overwrite kwargs (mkWorld (host w) is_org (server w) (requests w))).1
  = (upload_report blocks name description source_url publicly_visible tags project open
       None overwrite kwargs w).1 ∧
  host (upload_report blocks name description source_url publicly_visible tags project open
          None overwrite kwargs (mkWorld (host w) is_org (server w) (requests w))).2
  = host (upload_report blocks name description source_url publicly_visible tags project
            open None overwrite kwargs w).2 ∧
  requests (upload_report blocks name description source_url publicly_visible tags project
              open None overwrite kwargs (mkWorld (host w) is_org (server w) (requests w))).2
  = requests (upload_report blocks name description source_url publicly_visible tags
                project open None overwrite kwargs w).2.
Proof.
  unfold upload_report, on_host, zoom. run_M.
  unfold display_msg, modify. cbn [fst snd host config_is_org server requests].
  destruct (Pipeline_result _ _) as [[e|r] h1]; [done|].
  destruct r as [|doc|html|view_xml file_list]; cbn [unpack_pair]; run_M; try done.
  unfold post_with_files. cbn [host config_is_org server requests].
  unfold upload_kwargs, upload_kwargs_raw.
  case_bool_decide; [done|].
  destruct (server w _) as [e|report]; [done|].
  destruct open; done.
Qed.

(** X13: the named arguments win over extra keyword arguments of the same
    name, and every other extra keyword argument is collected as given: before
    the empty values are stripped, [name], [description], [tags],
    [source_url], [publicly_visible] and [project] hold the values of the
    parameters, with a formatting so do [width] and [is_light_prose], and a
    key that is none of these nine holds what the caller passed for it. *)
Theorem upload_kwargs_named_win (is_org : bool) (name description source_url : string)
    (publicly_visible : option bool) (tags : option (list string))
    (project : option string) (formatting : option AppFormatting)
    (kwargs : gmap string Value) :
  upload_kwargs_raw is_org name description source_url publicly_visible tags project
    formatting kwargs !! "name" = Some (VStr name) ∧
  upload_kwargs_raw is_org name description source_url publicly_visible tags project
    formatting kwargs !! "description" = Some (VStr description) ∧
  upload_kwargs_raw is_org name description source_url publicly_visible tags project
    formatting kwargs !! "tags" = Some (VList (default [] tags)) ∧
  upload_kwargs_raw is_org name description source_url publicly_visible tags project
    formatting kwargs !! "source_url" = Some (VStr source_url) ∧
  upload_kwargs_raw is_org name description source_url publicly_visible tags project
    formatting kwargs !! "publicly_visible"
  = Some (from_option VBool VNone publicly_visible) ∧
  upload_kwargs_raw is_org name description source_url publicly_visible tags project
    formatting kwargs !! "project" = Some (from_option VStr VNone project) ∧
  (∀ f, formatting = Some f →
        upload_kwargs_raw is_org name description source_url publicly_visible tags project
          formatting kwargs !! "width" = Some (VStr (width_value f)) ∧
        upload_kwargs_raw is_org name description source_url publicly_visible tags project
          formatting kwargs !! "is_light_prose" = Some (VBool (light_prose f))) ∧
  (∀ k, k ∉ ["name"; "description"; "tags"; "source_url"; "publicly_visible"; "project";
             "width"; "style_header"; "is_light_prose"] →
        upload_kwargs_raw is_org name description source_url publicly_visible tags project
          formatting kwargs !! k = kwargs !! k).
Proof.
  split; [by raw_lookup|].
  split; [apply raw_description|]. split; [apply raw_tags|].
  split; [apply raw_source_url|]. split; [apply raw_publicly_visible|].
  split; [apply raw_project|]. split.
  - intros f ->. unfold upload_kwargs_raw, dict_update. cbn [foldl fst snd].
    split.
    + repeat (rewrite lookup_insert_ne by done). by rewrite lookup_insert_eq.
    + by rewrite lookup_insert_eq.
  - intros k Hk. repeat (apply not_elem_of_cons in Hk as [? Hk]).
    unfold upload_kwargs_raw, dict_update. destruct formatting; cbn [foldl fst snd];
      repeat (rewrite lookup_insert_ne by congruence); done.
Qed.

(** ** [build_report]: what lies outside the destination *)

(** X14: on a well-formed file system, preparing the destination never
    removes or replaces an entry outside [<dest>/<name>], whether it succeeds
    or fails and whatever [overwrite] is. *)
Theorem build_dest_dir_keeps_outside (name : string) (dest : option Path)
    (overwrite : bool) (h : Host) (r : Exn + Path) (h1 : Host) :
  wf_fs (fs h) →
  build_dest_dir name dest overwrite h = (r, h1) →
  ∀ q n, ¬ under (app_dir_of h dest name) q → fs h !! q = Some n → fs h1 !! q = Some n.
Proof.
  intros Hwf Hrun q n Hout Hq.
  destruct (stat (fs h) (app_dir_of h dest name)) as [e0|[content|]] eqn:Hs.
  - destruct (stat_error _ _ _ Hs) as [[q0 ->] | [q0 ->]].
    + destruct (build_dest_dir_missing name dest overwrite q0 h Hwf Hs)
        as (m' & Hok & _ & _ & Hlook).
      rewrite Hok in Hrun. injection Hrun as <- <-. cbn [fs set_fs].
      by rewrite Hlook, Hq.
    + rewrite (build_dest_dir_blocked _ _ _ q0) in Hrun by done.
      by injection Hrun as <- <-.
  - rewrite (build_dest_dir_file _ _ _ content) in Hrun by done.
    by injection Hrun as <- <-.
  - apply is_dir_stat in Hs. destruct overwrite.
    + rewrite build_dest_dir_replaced in Hrun by done.
      injection Hrun as <- <-. cbn [fs set_fs].
      rewrite !lookup_insert_ne.
      * by rewrite lookup_remove_outside.
      * intros <-. apply Hout, under_refl.
      * intros <-. apply Hout, under_child.
    + rewrite build_dest_dir_refused in Hrun by done.
      by injection Hrun as <- <-.
Qed.

Lemma build_dest_dir_keeps_outside_witness :
  wf_fs (fs built_host) ∧
  fs (build_dest_dir "demo" None true built_host).2 !! mkpath ["tmp"] = Some Dir.
Proof.
  split; [by_decide|].
  apply (build_dest_dir_keeps_outside "demo" None true built_host
           (build_dest_dir "demo" None true built_host).1
           (build_dest_dir "demo" None true built_host).2).
  - by_decide.
  - vm_compute. reflexivity.
  - by_decide.
  - vm_compute. reflexivity.
Defined.
